(** * k8s_python: manifests, watch loops and scoped lifecycles

    A shallow embedding of [src/model.py] (classes [BaseObject], [Pod],
    [Deployment]) and [src/class_demo.py] (classes [PodManager],
    [DeploymentManager]), with the properties of the readiness watch
    loops, of the manifest merge, of the constructors and of the
    [__enter__]/[__exit__] hooks.

    Conventions.
    - A Python document (the [dict]s handed to [Pod(body=...)]) is a [json]
      value; a [dict] is an association list in insertion order.
    - A method is a computation in [M S A]: it reads and writes the
      attributes [S] of [self], appends to a trace of observable effects
      (remote calls, prints, log records, [Watch.stop()]) and either
      returns or raises.
    - What the cluster answers is a parameter of the method: for a remote
      call, the object returned or the exception raised (a [result]); for
      a watch, the list of events the generator yields before the server
      closes the stream at [timeout_seconds]. *)

From Stdlib Require Import List String ZArith Bool.
Import ListNotations.
Open Scope string_scope.
Open Scope list_scope.

Set Warnings "-register-all".

(* ================================================================= *)
(** ** Python documents *)

Module Json.

(** The values [json.loads]/[yaml.safe_load] produce (floats are not
    needed by any field the code reads and are left out). *)
Inductive json : Type :=
| JNull
| JBool (b : bool)
| JInt (z : Z)
| JStr (s : string)
| JList (l : list json)
| JDict (items : list (string * json)).

(** Python truthiness, as used by [if partial_manifest:] and [not x]. *)
Definition truthy (j : json) : bool :=
  match j with
  | JNull => false
  | JBool b => b
  | JInt z => negb (Z.eqb z 0)
  | JStr s => negb (String.eqb s "")
  | JList l => match l with [] => false | _ => true end
  | JDict items => match items with [] => false | _ => true end
  end.

(** [d.get(k)] on the items of a dict. *)
Fixpoint dict_get (k : string) (items : list (string * json)) : option json :=
  match items with
  | [] => None
  | (k', v) :: tl => if String.eqb k k' then Some v else dict_get k tl
  end.

(** [d[k] = v]: an existing key keeps its position, a new key goes last. *)
Fixpoint dict_set (k : string) (v : json) (items : list (string * json))
  : list (string * json) :=
  match items with
  | [] => [(k, v)]
  | (k', v') :: tl =>
      if String.eqb k k' then (k', v) :: tl else (k', v') :: dict_set k v tl
  end.

Definition keys (items : list (string * json)) : list string := map fst items.

Fixpoint mem (k : string) (ks : list string) : bool :=
  match ks with
  | [] => false
  | k' :: tl => String.eqb k k' || mem k tl
  end.

Fixpoint unique (ks : list string) : bool :=
  match ks with
  | [] => true
  | k :: tl => negb (mem k tl) && unique tl
  end.

(** The invariant of a Python document: no dict binds a key twice. *)
Fixpoint well_formed (j : json) : bool :=
  match j with
  | JList l => forallb well_formed l
  | JDict items =>
      unique (keys items) &&
      (fix values (items : list (string * json)) : bool :=
         match items with
         | [] => true
         | (_, v) :: tl => well_formed v && values tl
         end) items
  | _ => true
  end.

(** Induction over documents, through the lists and the dict items. *)
Section json_induction.
Variable P : json -> Prop.
Hypothesis HNull : P JNull.
Hypothesis HBool : forall b, P (JBool b).
Hypothesis HInt : forall z, P (JInt z).
Hypothesis HStr : forall s, P (JStr s).
Hypothesis HList : forall l, Forall P l -> P (JList l).
Hypothesis HDict :
  forall items, Forall (fun kv => P (snd kv)) items -> P (JDict items).

Fixpoint json_induction (j : json) : P j :=
  match j with
  | JNull => HNull
  | JBool b => HBool b
  | JInt z => HInt z
  | JStr s => HStr s
  | JList l =>
      HList l
        ((fix all (l : list json) : Forall P l :=
            match l with
            | [] => Forall_nil P
            | x :: tl => Forall_cons x (json_induction x) (all tl)
            end) l)
  | JDict items =>
      HDict items
        ((fix all (items : list (string * json))
            : Forall (fun kv => P (snd kv)) items :=
            match items with
            | [] => Forall_nil _
            | kv :: tl =>
                @Forall_cons _ (fun kv => P (snd kv)) kv tl
                  (json_induction (snd kv)) (all tl)
            end) items)
  end.
End json_induction.

End Json.
Import Json.

(* ================================================================= *)
(** ** The manifest merge *)

Module JsonMerge.

Section items.
Variable merge_value : json -> json -> json.

(** Key by key over the items of the override, updating the base. *)
Fixpoint merge_items (hitems acc : list (string * json))
  : list (string * json) :=
  match hitems with
  | [] => acc
  | (k, v) :: tl =>
      merge_items tl
        (dict_set k
           (match dict_get k acc with
            | Some bv => merge_value bv v
            | None => v
            end) acc)
  end.
End items.

(** Modelled from the spec: [jsonmerge.merge(base, head)], the third-party
    function [BaseObject.merge_partial_manifest] calls, whose code is not
    part of the repository.  Section 4.1: the override is deep-merged onto
    the base key by key; mapping values merge recursively; every other
    value, sequences included, replaces the base value. *)
Fixpoint merge (base head : json) {struct head} : json :=
  match head with
  | JDict hitems =>
      match base with
      | JDict bitems =>
          JDict (merge_items (fun bv v => merge bv v) hitems bitems)
      | _ => head
      end
  | _ => head
  end.

End JsonMerge.

Set Implicit Arguments.

(* ================================================================= *)
(** ** Effects, exceptions and the method monad *)

(** The remote calls the methods issue through the kubernetes client.
    [watch_*] is the request [Watch.stream(func=list_namespaced_*, ...)]
    sends when the [for] statement first asks the generator for an event. *)
Inductive api_call : Type :=
| create_namespaced_pod (namespace : string)
| delete_namespaced_pod (name namespace : string)
| watch_list_namespaced_pod (namespace : string) (timeout_seconds : Z)
| create_namespaced_deployment (namespace : string)
| delete_namespaced_deployment (name namespace : string)
| watch_list_namespaced_deployment (namespace : string) (timeout_seconds : Z).

Inductive effect : Type :=
| Api (c : api_call)
| Printed (s : string)
| LogInfo (s : string)
| LogWarning (s : string)
| LogPretty            (* self._logger.info(self.to_pretty()) *)
| WatchStop.           (* self._watch.stop() *)

Inductive exn : Type :=
| PyException (msg : string)   (* raise Exception(msg) *)
| AttributeError               (* x.attr with x None, or .get on a non-dict *)
| ApiException (status : Z)    (* raised by the client for a rejected call *)
| UserError (tag : string).    (* an error of the caller's own code *)

Inductive result (A : Type) : Type :=
| Return (a : A)
| Raise (e : exn).
Arguments Raise {A} e.

(** What a method hands back to Python code. *)
Inductive pyval : Type := PyTrue | PyFalse | PyNone | PySelf.

(** [if v:] *)
Definition is_true (v : pyval) : bool :=
  match v with PyTrue | PySelf => true | PyFalse | PyNone => false end.

Definition M (S A : Type) : Type := S -> result A * S * list effect.

Definition ret {S A} (a : A) : M S A := fun s => (Return a, s, []).
Definition raise {S A} (e : exn) : M S A := fun s => (Raise e, s, []).
Definition bind {S A B} (m : M S A) (f : A -> M S B) : M S B :=
  fun s =>
    match m s with
    | (Return a, s1, t1) =>
        match f a s1 with (r, s2, t2) => (r, s2, t1 ++ t2) end
    | (Raise e, s1, t1) => (Raise e, s1, t1)
    end.
Definition get {S} : M S S := fun s => (Return s, s, []).
Definition put {S} (s : S) : M S unit := fun _ => (Return tt, s, []).
Definition tell {S} (e : effect) : M S unit := fun s => (Return tt, s, [e]).
Definition lift {S A} (r : result A) : M S A := fun s => (r, s, []).

(** A remote call: recorded, then answered by the cluster. *)
Definition call {S A} (c : api_call) (answer : result A) : M S A :=
  fun s => (answer, s, [Api c]).

Declare Scope method_scope.
Delimit Scope method_scope with method.
Notation "x <- m ;; k" := (bind m (fun x => k))
  (at level 61, m at next level, right associativity) : method_scope.
Notation "m ;; k" := (bind m (fun _ => k))
  (at level 61, right associativity) : method_scope.
Open Scope method_scope.

(** [a and b], the right operand evaluated only when the left is true. *)
Definition py_and {S} (a b : M S bool) : M S bool :=
  x <- a ;; if x then b else ret false.

(** [a or b], the right operand evaluated only when the left is false. *)
Definition py_or {S} (a b : M S bool) : M S bool :=
  x <- a ;; if x then ret true else b.

Definition print {S} (s : string) : M S unit := tell (Printed s).
Definition stop {S} : M S unit := tell WatchStop.

(** The [with] statement (PEP 343): [__exit__] runs on both ways out of
    the body; an error of the body is re-raised unless [__exit__] returns
    a true value; an error raised by [__exit__] itself replaces it.  An
    error of [__enter__] propagates without [__exit__]. *)
Definition with_statement {S B}
    (enter : M S pyval) (exit : option exn -> M S pyval)
    (body : pyval -> M S B) : M S (option B) :=
  fun s =>
    match enter s with
    | (Raise e, s1, t1) => (Raise e, s1, t1)
    | (Return h, s1, t1) =>
        match body h s1 with
        | (Return b, s2, t2) =>
            match exit None s2 with
            | (Return _, s3, t3) => (Return (Some b), s3, t1 ++ t2 ++ t3)
            | (Raise e', s3, t3) => (Raise e', s3, t1 ++ t2 ++ t3)
            end
        | (Raise e, s2, t2) =>
            match exit (Some e) s2 with
            | (Return v, s3, t3) =>
                if is_true v then (Return None, s3, t1 ++ t2 ++ t3)
                else (Raise e, s3, t1 ++ t2 ++ t3)
            | (Raise e', s3, t3) => (Raise e', s3, t1 ++ t2 ++ t3)
            end
        end
    end.

(* ================================================================= *)
(** ** Typed models and watch events *)

Record V1ObjectMeta : Type :=
  { name : string; namespace : string; uid : option string }.

Record V1PodStatus : Type := { phase : option string }.
Record V1DeploymentSpec : Type := { replicas : option Z }.
Record V1DeploymentStatus : Type := { available_replicas : option Z }.

(** A client model object: every attribute is [None] until set. *)
Module Obj.
Record t (Spec Status : Type) : Type :=
  { metadata : option V1ObjectMeta;
    spec : option Spec;
    status : option Status }.
(** [client.V1Pod()], [client.V1Deployment()]: the empty default. *)
Definition empty {Spec Status} : t Spec Status :=
  {| metadata := None; spec := None; status := None |}.
End Obj.

Definition V1Pod : Type := Obj.t unit V1PodStatus.
Definition V1Deployment : Type := Obj.t V1DeploymentSpec V1DeploymentStatus.

(** An element of a watch stream, [{"type": ..., "object": ...}].  The
    object is what the API server sent: it carries its metadata and its
    status, so [event["object"].metadata.name] and
    [event["object"].status.<field>] are defined. *)
Module Event.
Record t (Status : Type) : Type :=
  { type : string; metadata : V1ObjectMeta; status : Status }.
End Event.

Definition PodEvent : Type := Event.t V1PodStatus.
Definition DeploymentEvent : Type := Event.t V1DeploymentStatus.

(** Python [==] on the values compared by the loops. *)
Definition opt_eqb {A} (eqb : A -> A -> bool) (x y : option A) : bool :=
  match x, y with
  | Some a, Some b => eqb a b
  | None, None => true
  | _, _ => false
  end.

Definition is_running (e : PodEvent) : bool :=
  opt_eqb String.eqb (phase (Event.status e)) (Some "Running").

Definition is_deleted {St} (e : Event.t St) : bool :=
  String.eqb (Event.type e) "DELETED".

Definition named {St} (e : Event.t St) (n : string) : bool :=
  String.eqb (name (Event.metadata e)) n.

(* ================================================================= *)
(** ** model.py: BaseObject *)

Module BaseObject.
Record t (Model : Type) : Type :=
  { manifest : json; model : option Model }.

(** [BaseObject.__init__]: [self.manifest = {}], [self.model = None]. *)
Definition init {Model} : t Model :=
  {| manifest := JDict []; model := None |}.

Definition set_manifest {Model} (m : json) : M (t Model) unit :=
  s <- get ;; put {| manifest := m; model := model s |}.

Definition set_model {Model} (m : Model) : M (t Model) unit :=
  s <- get ;; put {| manifest := manifest s; model := Some m |}.

(** [self.manifest = merge(self.manifest, partial_manifest)] *)
Definition merge_partial_manifest {Model} (partial_manifest : json)
  : M (t Model) unit :=
  s <- get ;;
  set_manifest (JsonMerge.merge (manifest s) partial_manifest).
End BaseObject.
Import BaseObject.

(** [Cls(args)]: run [__init__] on a fresh object; the object exists for
    the caller only when [__init__] returns. *)
Definition construct {Model} (init_method : M (BaseObject.t Model) unit)
  : result (BaseObject.t Model) * list effect :=
  match init_method BaseObject.init with
  | (Return _, s, t) => (Return s, t)
  | (Raise e, _, t) => (Raise e, t)
  end.

(** The properties [name], [namespace], [namespaced_name], [uid], which
    [Pod] and [Deployment] define alike over [self.model.metadata]. *)
Section properties.
Context {Sp St : Type}.
Let Self : Type := BaseObject.t (Obj.t Sp St).

Definition model_metadata : M Self V1ObjectMeta :=
  s <- get ;;
  match model s with
  | Some o =>
      match Obj.metadata o with
      | Some md => ret md
      | None => raise AttributeError
      end
  | None => raise AttributeError
  end.

Definition model_spec : M Self Sp :=
  s <- get ;;
  match model s with
  | Some o =>
      match Obj.spec o with
      | Some sp => ret sp
      | None => raise AttributeError
      end
  | None => raise AttributeError
  end.

Definition self_name : M Self string :=
  md <- model_metadata ;; ret (name md).
Definition self_namespace : M Self string :=
  md <- model_metadata ;; ret (namespace md).
Definition self_uid : M Self (option string) :=
  md <- model_metadata ;; ret (uid md).
(** [f"{self.namespace}/{self.name}"] *)
Definition namespaced_name : M Self string :=
  ns <- self_namespace ;; n <- self_name ;;
  ret (ns ++ "/" ++ n)%string.

(** [x.get(k, default)], an [AttributeError] when [x] is no dict. *)
Definition py_get (x : json) (k : string) (default : json) : result json :=
  match x with
  | JDict items =>
      Return (match dict_get k items with Some v => v | None => default end)
  | _ => Raise AttributeError
  end.

(** [not self.manifest.get("metadata", {}).get(field)] *)
Definition not_specified (field : string) : M Self bool :=
  s <- get ;;
  md <- lift (py_get (manifest s) "metadata" (JDict [])) ;;
  v <- lift (py_get md field JNull) ;;
  ret (negb (truthy v)).

(** The body shared by [Pod.__init__] and [Deployment.__init__]; the two
    differ in the message of the exception.  [default_manifest] is the
    class attribute [_default_manifest], [deserialize] the client's
    [ApiClient.deserialize] for the class's [openapi_model].  Creating
    [client.CoreV1Api()] / [client.AppsV1Api()] and [watch.Watch()]
    sends nothing. *)
Definition entity__init__ (message : string) (default_manifest : json)
    (deserialize : json -> result (Obj.t Sp St))
    (body partial_manifest : json) : M Self unit :=
  put BaseObject.init ;;
  set_manifest (match body with JNull => default_manifest | _ => body end) ;;
  (if truthy partial_manifest
   then merge_partial_manifest partial_manifest
   else ret tt) ;;
  missing <- py_or (not_specified "name") (not_specified "namespace") ;;
  if missing then raise (PyException message)
  else
    s <- get ;;
    m <- lift (deserialize (manifest s)) ;;
    set_model m.
End properties.

(* ================================================================= *)
(** ** model.py: Pod *)

Module Pod.
Definition t : Type := BaseObject.t V1Pod.

Definition __init__ :=
  @entity__init__ unit V1PodStatus
    "name & namespace both not specified while initializing pod".

(** The [for] loop of [create], over the events the stream yields. *)
Fixpoint create_watch (events : list PodEvent) : M t pyval :=
  match events with
  | [] =>
      nn <- namespaced_name ;;
      tell (LogWarning ("Unable to get created pod " ++ nn)%string) ;;
      ret PyFalse
  | event :: rest =>
      ready <- py_and (ret (is_running event))
                      (n <- self_name ;; ret (named event n)) ;;
      if ready then
        stop ;;
        nn <- namespaced_name ;;
        tell (LogInfo ("Pod created " ++ nn)%string) ;;
        ret PyTrue
      else
        deleted <- py_and (ret (is_deleted event))
                          (n <- self_name ;; ret (named event n)) ;;
        if deleted then
          stop ;;
          nn <- namespaced_name ;;
          tell (LogWarning ("Pod deleted " ++ nn)%string) ;;
          ret PyFalse
        else create_watch rest
  end.

Definition create (wait_for_completion : bool) (timeout : Z)
    (created : result V1Pod) (events : list PodEvent) : M t pyval :=
  nn <- namespaced_name ;;
  tell (LogInfo ("Creating pod " ++ nn)%string) ;;
  tell LogPretty ;;
  ns <- self_namespace ;;
  m <- call (create_namespaced_pod ns) created ;;
  set_model m ;;
  if wait_for_completion then
    ns' <- self_namespace ;;
    tell (Api (watch_list_namespaced_pod ns' timeout)) ;;
    create_watch events
  else
    nn' <- namespaced_name ;;
    tell (LogInfo ("Pod created " ++ nn')%string) ;;
    ret PyTrue.

(** The [for] loop of [delete]. *)
Fixpoint delete_watch (events : list PodEvent) : M t pyval :=
  match events with
  | [] =>
      nn <- namespaced_name ;;
      tell (LogWarning ("Unable to delete pod " ++ nn)%string) ;;
      ret PyFalse
  | event :: rest =>
      gone <- py_and (ret (is_deleted event))
                     (u <- self_uid ;;
                      ret (opt_eqb String.eqb
                             (uid (Event.metadata event)) u)) ;;
      if gone then
        stop ;;
        nn <- namespaced_name ;;
        tell (LogInfo ("Deleted pod " ++ nn)%string) ;;
        set_model Obj.empty ;;
        ret PyTrue
      else delete_watch rest
  end.

Definition delete (wait_for_completion : bool) (timeout : Z)
    (deleted : result unit) (events : list PodEvent) : M t pyval :=
  nn <- namespaced_name ;;
  tell (LogInfo ("Deleting pod " ++ nn)%string) ;;
  n <- self_name ;;
  ns <- self_namespace ;;
  call (delete_namespaced_pod n ns) deleted ;;
  if wait_for_completion then
    ns' <- self_namespace ;;
    tell (Api (watch_list_namespaced_pod ns' timeout)) ;;
    delete_watch events
  else
    set_model Obj.empty ;;
    nn' <- namespaced_name ;;
    tell (LogInfo ("Deleted pod " ++ nn')%string) ;;
    ret PyTrue.

Definition __enter__ (created : result V1Pod) (events : list PodEvent)
  : M t pyval :=
  ok <- create true 60 created events ;;
  if is_true ok then ret PySelf
  else print "unable to get pod ready" ;; ret PySelf.

Definition __exit__ (deleted : result unit) (events : list PodEvent)
    (exc : option exn) : M t pyval :=
  ok <- delete true 60 deleted events ;;
  (if negb (is_true ok) then print "unable to delete pod" else ret tt) ;;
  ret PyNone.
End Pod.

(* ================================================================= *)
(** ** model.py: Deployment *)

Module Deployment.
Definition t : Type := BaseObject.t V1Deployment.

Definition __init__ :=
  @entity__init__ V1DeploymentSpec V1DeploymentStatus
    "name & namespace both not specified while initializing deployment".

(** [self.model.spec.replicas] *)
Definition self_replicas : M t (option Z) :=
  sp <- model_spec ;; ret (replicas sp).

Fixpoint create_watch (events : list DeploymentEvent) : M t pyval :=
  match events with
  | [] =>
      nn <- namespaced_name ;;
      print ("unable to get created deployment " ++ nn)%string ;;
      ret PyFalse
  | event :: rest =>
      ready <- py_and
                 (r <- self_replicas ;;
                  ret (opt_eqb Z.eqb
                         (available_replicas (Event.status event)) r))
                 (n <- self_name ;; ret (named event n)) ;;
      if ready then stop ;; ret PyTrue
      else
        deleted <- py_and (ret (is_deleted event))
                          (n <- self_name ;; ret (named event n)) ;;
        if deleted then stop ;; ret PyFalse
        else create_watch rest
  end.

Definition create (wait_for_completion : bool) (timeout : Z)
    (created : result V1Deployment) (events : list DeploymentEvent)
  : M t pyval :=
  tell LogPretty ;;
  ns <- self_namespace ;;
  m <- call (create_namespaced_deployment ns) created ;;
  set_model m ;;
  if wait_for_completion then
    ns' <- self_namespace ;;
    tell (Api (watch_list_namespaced_deployment ns' timeout)) ;;
    create_watch events
  else ret PyTrue.

Fixpoint delete_watch (events : list DeploymentEvent) : M t pyval :=
  match events with
  | [] =>
      nn <- namespaced_name ;;
      print ("unable to delete deployment " ++ nn)%string ;;
      ret PyFalse
  | event :: rest =>
      gone <- py_and (ret (is_deleted event))
                     (u <- self_uid ;;
                      ret (opt_eqb String.eqb
                             (uid (Event.metadata event)) u)) ;;
      if gone then stop ;; ret PyTrue
      else delete_watch rest
  end.

(** The generator [watcher] is created before the delete call (its
    [namespace] argument is evaluated there) and first asked for an
    event after it. *)
Definition delete (wait_for_completion : bool) (timeout : Z)
    (deleted : result unit) (events : list DeploymentEvent) : M t pyval :=
  watcher_ns <- (if wait_for_completion then self_namespace else ret "") ;;
  n <- self_name ;;
  ns <- self_namespace ;;
  call (delete_namespaced_deployment n ns) deleted ;;
  if wait_for_completion then
    tell (Api (watch_list_namespaced_deployment watcher_ns timeout)) ;;
    delete_watch events
  else
    set_model Obj.empty ;;
    ret PyTrue.

Definition __enter__ (created : result V1Deployment)
    (events : list DeploymentEvent) : M t pyval :=
  ok <- create true 60 created events ;;
  if is_true ok then ret PySelf else ret PySelf.

Definition __exit__ (deleted : result unit) (events : list DeploymentEvent)
    (exc : option exn) : M t pyval :=
  ok <- delete true 30 deleted events ;;
  (if negb (is_true ok) then print "unable to delete deployment"
   else ret tt) ;;
  ret PyNone.
End Deployment.

(* ================================================================= *)
(** ** class_demo.py: PodManager and DeploymentManager *)

(** [self.pod] / [self.deployment]: the dict given to the constructor
    until [create] stores the client model the server answered with
    ([Union[client.V1Pod, dict]]). *)
Inductive held (Model : Type) : Type :=
| AsDict (d : json)
| AsModel (m : Model).
Arguments AsDict {Model} d.

Section held_attributes.
Context {Sp St : Type}.
Let Self : Type := held (Obj.t Sp St).

(** [self.pod.metadata]: a dict has no attribute [metadata]. *)
Definition held_metadata : M Self V1ObjectMeta :=
  s <- get ;;
  match s with
  | AsModel o =>
      match Obj.metadata o with
      | Some md => ret md
      | None => raise AttributeError
      end
  | AsDict _ => raise AttributeError
  end.

Definition held_spec : M Self Sp :=
  s <- get ;;
  match s with
  | AsModel o =>
      match Obj.spec o with
      | Some sp => ret sp
      | None => raise AttributeError
      end
  | AsDict _ => raise AttributeError
  end.
End held_attributes.

Module PodManager.
Definition t : Type := held V1Pod.

Definition create (namespace : string) (created : result V1Pod)
  : M t pyval :=
  print "create" ;;
  res <- call (create_namespaced_pod namespace) created ;;
  put (AsModel res) ;;
  ret PyNone.

Definition delete (name namespace : string) (deleted : result unit)
  : M t pyval :=
  call (delete_namespaced_pod name namespace) deleted ;;
  put (AsModel Obj.empty) ;;
  ret PyTrue.

(** The [for] loop of [ready]; leaving it by exhaustion falls off the
    end of the function, which returns [None]. *)
Fixpoint ready_watch (events : list PodEvent) : M t pyval :=
  match events with
  | [] => ret PyNone
  | event :: rest =>
      ready <- py_and (ret (is_running event))
                      (md <- held_metadata ;; ret (named event (name md))) ;;
      if ready then
        print (name (Event.metadata event)) ;;
        stop ;;
        ret PyTrue
      else if is_deleted event then
        stop ;;
        ret PyFalse
      else ready_watch rest
  end.

Definition ready (timeout : Z) (events : list PodEvent) : M t pyval :=
  print "ready" ;;
  md <- held_metadata ;;
  tell (Api (watch_list_namespaced_pod (namespace md) timeout)) ;;
  ready_watch events.

Definition __enter__ (created : result V1Pod) (events : list PodEvent)
  : M t pyval :=
  print "__enter__" ;;
  create "default" created ;;
  ok <- ready 60 events ;;
  if is_true ok then ret PySelf
  else print "unable to get pod ready" ;; ret PySelf.

Definition __exit__ (deleted : result unit) (exc : option exn)
  : M t pyval :=
  md <- held_metadata ;;
  md' <- held_metadata ;;
  delete (name md) (namespace md') deleted.
End PodManager.

Module DeploymentManager.
Definition t : Type := held V1Deployment.

Definition create (namespace : string) (created : result V1Deployment)
  : M t pyval :=
  print "create" ;;
  res <- call (create_namespaced_deployment namespace) created ;;
  put (AsModel res) ;;
  ret PyNone.

(** Returns what the client returns; [self.deployment] is untouched. *)
Definition delete (deleted : result unit) : M t unit :=
  md <- held_metadata ;;
  md' <- held_metadata ;;
  call (delete_namespaced_deployment (name md) (namespace md')) deleted.

Fixpoint ready_watch (events : list DeploymentEvent) : M t pyval :=
  match events with
  | [] => ret PyNone
  | event :: rest =>
      print (Event.type event) ;;
      ready <- py_and
                 (md <- held_metadata ;; ret (named event (name md)))
                 (sp <- held_spec ;;
                  ret (opt_eqb Z.eqb
                         (available_replicas (Event.status event))
                         (replicas sp))) ;;
      if ready then
        print (name (Event.metadata event)) ;;
        stop ;;
        ret PyTrue
      else if is_deleted event then
        stop ;;
        ret PyFalse
      else ready_watch rest
  end.

Definition ready (timeout : Z) (events : list DeploymentEvent)
  : M t pyval :=
  print "ready" ;;
  md <- held_metadata ;;
  tell (Api (watch_list_namespaced_deployment (namespace md) timeout)) ;;
  ready_watch events.
End DeploymentManager.

(* ================================================================= *)
(** ** The shape shared by the four readiness loops *)

(** Each loop tests an event for readiness first, then for deletion, and
    otherwise goes on to the next event.  A [protocol] lists what varies:
    the two tests, what is emitted on each way out, what is emitted for
    every event before the tests, and the value returned when the stream
    ends. *)
Module Watcher.
Record protocol (E : Type) : Type :=
  { each : E -> list effect;
    is_ready : E -> bool;
    on_ready : E -> list effect;
    is_gone : E -> bool;
    on_gone : list effect;
    on_timeout : list effect;
    timeout_value : pyval }.

Fixpoint await {E} (p : protocol E) (events : list E)
  : pyval * list effect :=
  match events with
  | [] => (timeout_value p, on_timeout p)
  | e :: rest =>
      if is_ready p e then (PyTrue, each p e ++ on_ready p e)
      else if is_gone p e then (PyFalse, each p e ++ on_gone p)
      else let '(v, t) := await p rest in (v, each p e ++ t)
  end.

(** The loop of protocol [p] as a run: it returns, it cannot raise. *)
Definition run_of {E} (p : protocol E) (events : list E)
  : result pyval * list effect :=
  (Return (fst (await p events)), snd (await p events)).
End Watcher.
Import Watcher.

(** The tests of the four loops, for a target [n] (and replica count [r]). *)
Definition pod_ready (n : string) (e : PodEvent) : bool :=
  is_running e && named e n.

Definition deployment_ready (n : string) (r : option Z) (e : DeploymentEvent)
  : bool :=
  opt_eqb Z.eqb (available_replicas (Event.status e)) r && named e n.

Definition deleted_named {St} (n : string) (e : Event.t St) : bool :=
  is_deleted e && named e n.

Definition deployment_manager_ready (n : string) (r : option Z)
    (e : DeploymentEvent) : bool :=
  named e n && opt_eqb Z.eqb (available_replicas (Event.status e)) r.

Definition full_name (md : V1ObjectMeta) : string :=
  (namespace md ++ "/" ++ name md)%string.

Definition pod_create_protocol (md : V1ObjectMeta) : protocol PodEvent :=
  {| each := fun _ => [];
     is_ready := pod_ready (name md);
     on_ready := fun _ =>
       [WatchStop; LogInfo ("Pod created " ++ full_name md)%string];
     is_gone := deleted_named (name md);
     on_gone := [WatchStop; LogWarning ("Pod deleted " ++ full_name md)%string];
     on_timeout :=
       [LogWarning ("Unable to get created pod " ++ full_name md)%string];
     timeout_value := PyFalse |}.

Definition deployment_create_protocol (md : V1ObjectMeta) (r : option Z)
  : protocol DeploymentEvent :=
  {| each := fun _ => [];
     is_ready := deployment_ready (name md) r;
     on_ready := fun _ => [WatchStop];
     is_gone := deleted_named (name md);
     on_gone := [WatchStop];
     on_timeout :=
       [Printed ("unable to get created deployment " ++ full_name md)%string];
     timeout_value := PyFalse |}.

Definition pod_manager_protocol (md : V1ObjectMeta) : protocol PodEvent :=
  {| each := fun _ => [];
     is_ready := pod_ready (name md);
     on_ready := fun e => [Printed (name (Event.metadata e)); WatchStop];
     is_gone := is_deleted;
     on_gone := [WatchStop];
     on_timeout := [];
     timeout_value := PyNone |}.

Definition deployment_manager_protocol (md : V1ObjectMeta) (r : option Z)
  : protocol DeploymentEvent :=
  {| each := fun e => [Printed (Event.type e)];
     is_ready := deployment_manager_ready (name md) r;
     on_ready := fun e => [Printed (name (Event.metadata e)); WatchStop];
     is_gone := is_deleted;
     on_gone := [WatchStop];
     on_timeout := [];
     timeout_value := PyNone |}.

(** What a loop run from state [s] gives back and emits. *)
Definition outcome {S A} (m : M S A) (s : S) : result A * list effect :=
  (fst (fst (m s)), snd (m s)).

Definition state_after {S A} (m : M S A) (s : S) : S := snd (fst (m s)).

(** [self.model.metadata] and [self.model.spec] as the state has them. *)
Definition metadata_of {Sp St} (s : BaseObject.t (Obj.t Sp St))
  : option V1ObjectMeta :=
  match model s with Some o => Obj.metadata o | None => None end.

Definition spec_of {Sp St} (s : BaseObject.t (Obj.t Sp St)) : option Sp :=
  match model s with Some o => Obj.spec o | None => None end.

Definition held_metadata_of {Sp St} (s : held (Obj.t Sp St))
  : option V1ObjectMeta :=
  match s with AsModel o => Obj.metadata o | AsDict _ => None end.

Definition held_spec_of {Sp St} (s : held (Obj.t Sp St)) : option Sp :=
  match s with AsModel o => Obj.spec o | AsDict _ => None end.

(** The four readiness loops as runs from a state [s]. *)
Definition pod_create_run (s : Pod.t) (events : list PodEvent)
  : result pyval * list effect :=
  outcome (Pod.create_watch events) s.

Definition deployment_create_run (s : Deployment.t)
    (events : list DeploymentEvent) : result pyval * list effect :=
  outcome (Deployment.create_watch events) s.

Definition pod_manager_run (s : PodManager.t) (events : list PodEvent)
  : result pyval * list effect :=
  outcome (PodManager.ready_watch events) s.

Definition deployment_manager_run (s : DeploymentManager.t)
    (events : list DeploymentEvent) : result pyval * list effect :=
  outcome (DeploymentManager.ready_watch events) s.

(* ================================================================= *)
(** ** Vocabulary of the properties *)

(** The value at a path of keys in a document, when every step is a dict
    that binds the key. *)
Fixpoint lookup (path : list string) (j : json) : option json :=
  match path with
  | [] => Some j
  | k :: rest =>
      match j with
      | JDict items =>
          match dict_get k items with
          | Some v => lookup rest v
          | None => None
          end
      | _ => None
      end
  end.

(** [metadata.<field>] is missing or empty. *)
Definition missing_or_empty (field : string) (manifest : json) : bool :=
  match lookup ["metadata"; field] manifest with
  | Some v => negb (truthy v)
  | None => true
  end.

(** The manifest a constructor checks: the body (or the class default),
    with the partial override merged in when one is given. *)
Definition merged_manifest (default_manifest body partial_manifest : json)
  : json :=
  let base := match body with JNull => default_manifest | _ => body end in
  if truthy partial_manifest
  then JsonMerge.merge base partial_manifest
  else base.

(** The manifest is a mapping whose [metadata], when present, is one. *)
Definition metadata_is_mapping (manifest : json) : bool :=
  match manifest with
  | JDict items =>
      match dict_get "metadata" items with
      | Some (JDict _) | None => true
      | Some _ => false
      end
  | _ => false
  end.

(** The guarantees of a readiness loop [run] with tests [ready], [gone]:
    it resolves at the first event that passes a test, Ready on [ready],
    Deleted otherwise, stops the watch there, and nothing that follows
    that event has any influence on the result. *)
Section loop_properties.
Context {E : Type}.
Variable run : list E -> result pyval * list effect.
Variables ready gone : E -> bool.

Definition passed_over (e : E) : Prop := ready e = false /\ gone e = false.

Definition resolves_ready_at_first : Prop :=
  forall pre e post,
    Forall passed_over pre -> ready e = true ->
    fst (run (pre ++ e :: post)) = Return PyTrue /\
    In WatchStop (snd (run (pre ++ e :: post))) /\
    forall post', run (pre ++ e :: post') = run (pre ++ e :: post).

Definition ready_only_at_first : Prop :=
  forall events,
    fst (run events) = Return PyTrue ->
    exists pre e post,
      events = pre ++ e :: post /\
      Forall passed_over pre /\ ready e = true.

Definition resolves_deleted_at_first : Prop :=
  forall pre e post,
    Forall passed_over pre -> ready e = false -> gone e = true ->
    fst (run (pre ++ e :: post)) = Return PyFalse /\
    In WatchStop (snd (run (pre ++ e :: post))) /\
    forall post', run (pre ++ e :: post') = run (pre ++ e :: post).

(** A matching DELETED event that fails the readiness test resolves
    Deleted, whatever came before it short of a ready event. *)
Definition deleted_before_ready (matching_deleted : E -> bool) : Prop :=
  forall pre e post,
    Forall (fun x => ready x = false) pre ->
    matching_deleted e = true -> ready e = false ->
    fst (run (pre ++ e :: post)) = Return PyFalse /\
    In WatchStop (snd (run (pre ++ e :: post))).

(** An event that passes neither test is passed over: the loop goes on
    with the rest of the stream, having emitted [noise e] only. *)
Definition passes_over (skippable : E -> Prop) (noise : E -> list effect)
  : Prop :=
  forall e rest,
    skippable e ->
    run (e :: rest) = (fst (run rest), noise e ++ snd (run rest)).

Definition then_ready (skippable : E -> Prop) : Prop :=
  forall e e' post,
    skippable e -> ready e' = true ->
    fst (run (e :: e' :: post)) = Return PyTrue.

(** With nothing but passed-over events the stream runs out: the loop
    returns [v], emits [last] after the per-event [noise], and never
    stops the watch itself. *)
Definition times_out (v : pyval) (noise : E -> list effect)
    (last : list effect) : Prop :=
  forall events,
    Forall passed_over events ->
    run events = (Return v, flat_map noise events ++ last).
End loop_properties.

(** Resolution happens once, at the first event that passes a test. *)
Definition resolves_once {E} (run : list E -> result pyval * list effect)
    (ready gone : E -> bool) : Prop :=
  resolves_ready_at_first run ready gone /\
  ready_only_at_first run ready gone /\
  resolves_deleted_at_first run ready gone.



Definition nothing {E} (e : E) : list effect := [].

Definition type_printed (e : DeploymentEvent) : list effect :=
  [Printed (Event.type e)].

(** Construction fails before anything is sent: the constructor raises,
    with an empty trace, the class's [Exception(message)] when the
    manifest is a mapping whose [metadata] is absent or a mapping, and the
    [AttributeError] of [.get] on a non-dict otherwise. *)
Definition fails_validation {Model}
    (r : result (BaseObject.t Model) * list effect)
    (message : string) (checked : json) : Prop :=
  exists e,
    r = (Raise e, []) /\
    e = (if metadata_is_mapping checked
         then PyException message else AttributeError).

(** ** Sample objects and events *)

(** The pod manifest of [main()] without its namespace, and a partial
    override that supplies it. *)
Definition pod_manifest : json :=
  JDict [("apiVersion", JStr "v1");
         ("kind", JStr "Pod");
         ("metadata", JDict [("name", JStr "sample-pod2");
                             ("labels", JDict [("app", JStr "l1")])]);
         ("spec", JDict [("containers",
                          JList [JDict [("image", JStr "busybox");
                                        ("name", JStr "sleep")]])])].

Definition namespace_override : json :=
  JDict [("metadata", JDict [("namespace", JStr "default");
                             ("labels", JDict [("tier", JStr "web")])])].


Definition sample_meta : V1ObjectMeta :=
  {| name := "sample-pod"; namespace := "default"; uid := Some "7d1c" |}.

Definition other_meta : V1ObjectMeta :=
  {| name := "other-pod"; namespace := "default"; uid := Some "93ab" |}.

Definition nginx_meta : V1ObjectMeta :=
  {| name := "nginx-deployment"; namespace := "default";
     uid := Some "c0de" |}.

Definition pod_event (ty : string) (md : V1ObjectMeta) (ph : string)
  : PodEvent :=
  {| Event.type := ty; Event.metadata := md;
     Event.status := {| phase := Some ph |} |}.

Definition deployment_event (ty : string) (md : V1ObjectMeta)
    (available : option Z) : DeploymentEvent :=
  {| Event.type := ty; Event.metadata := md;
     Event.status := {| available_replicas := available |} |}.

Definition sample_v1pod : V1Pod :=
  {| Obj.metadata := Some sample_meta; Obj.spec := None;
     Obj.status := Some {| phase := Some "Pending" |} |}.

Definition nginx_v1deployment : V1Deployment :=
  {| Obj.metadata := Some nginx_meta;
     Obj.spec := Some {| replicas := Some 3%Z |};
     Obj.status := Some {| available_replicas := None |} |}.

Definition sample_pod : Pod.t :=
  {| manifest := JDict []; model := Some sample_v1pod |}.

Definition nginx_deployment : Deployment.t :=
  {| manifest := JDict []; model := Some nginx_v1deployment |}.

Definition sample_pod_manager : PodManager.t := AsModel sample_v1pod.

Definition nginx_deployment_manager : DeploymentManager.t :=
  AsModel nginx_v1deployment.

(* ================================================================= *)
(** ** Vocabulary of the further properties *)

(** A path the override says nothing about: on the way down the override
    is a dict, and at some step it does not bind the next key. *)
Fixpoint untouched (path : list string) (head : json) : bool :=
  match path, head with
  | k :: rest, JDict items =>
      match dict_get k items with
      | None => true
      | Some v => untouched rest v
      end
  | _, _ => false
  end.

(** A value that is no mapping: the merge replaces, it does not descend. *)
Definition is_leaf (j : json) : bool :=
  match j with JDict _ => false | _ => true end.

(** The test of the two [delete] loops: a DELETED event that carries the
    uid [u] of the object ([None == None] included, as in Python). *)
Definition uid_deleted {St} (u : option string) (e : Event.t St) : bool :=
  is_deleted e && opt_eqb String.eqb (uid (Event.metadata e)) u.

(** What a [Pod] or [Deployment] holds after the create call returned
    [m]. *)
Definition holding {Model} (s : BaseObject.t Model) (m : Model)
  : BaseObject.t Model :=
  {| manifest := manifest s; model := Some m |}.

(** The three ways a readiness loop ends, and no other: Ready at the
    first event that passes the readiness test, Deleted at the first that
    fails it and passes the deletion test, or, the stream exhausted by
    events that pass neither, the value [v] without [Watch.stop()]. *)
Definition three_outcomes {E} (run : list E -> result pyval * list effect)
    (ready gone : E -> bool) (v : pyval) : Prop :=
  forall events,
    (exists pre e post,
        events = pre ++ e :: post /\
        Forall (passed_over ready gone) pre /\ ready e = true /\
        fst (run events) = Return PyTrue /\
        In WatchStop (snd (run events))) \/
    (exists pre e post,
        events = pre ++ e :: post /\
        Forall (passed_over ready gone) pre /\
        ready e = false /\ gone e = true /\
        fst (run events) = Return PyFalse /\
        In WatchStop (snd (run events))) \/
    (Forall (passed_over ready gone) events /\
     fst (run events) = Return v /\
     ~ In WatchStop (snd (run events))).

(** Every DELETED event of the stream is an event of the target [n]. *)
Definition deletions_named {St} (n : string) (events : list (Event.t St))
  : Prop :=
  Forall (fun e => is_deleted e = true -> named e n = true) events.

(** Two runs end the same way: both Ready, both Deleted, or both with the
    stream exhausted (the values returned then may differ). *)
Definition same_ending (r r' : result pyval * list effect) : Prop :=
  (fst r = Return PyTrue <-> fst r' = Return PyTrue) /\
  (In WatchStop (snd r) <-> In WatchStop (snd r')).



(** Streams on which the first matching, ready event comes after the
    DELETED event of another object. *)
Definition pod_stream_with_foreign_deletion : list PodEvent :=
  [pod_event "MODIFIED" sample_meta "Pending";
   pod_event "DELETED" other_meta "Running";
   pod_event "MODIFIED" sample_meta "Running";
   pod_event "MODIFIED" sample_meta "Running"].

Definition deployment_stream_with_foreign_deletion : list DeploymentEvent :=
  [deployment_event "MODIFIED" nginx_meta (Some 2%Z);
   deployment_event "DELETED" other_meta (Some 1%Z);
   deployment_event "MODIFIED" nginx_meta (Some 3%Z)].

(* ================================================================= *)
(** ** Streams that fail *)

(** How a watch generator stops yielding: the server closes the stream at
    the timeout and the [for] statement ends, or the generator raises (a
    rejected list call, an ERROR line in the stream). *)
Inductive ending : Type :=
| Closed
| Broken (e : exn).

(** [for event in generator: body] followed by [orelse]: [body] answers
    [Some v] when it executes [return v] and [None] when it falls
    through to the next event; an error of the generator propagates, no
    loop having a handler. *)
Fixpoint for_each {S E} (body : E -> M S (option pyval))
    (orelse : M S pyval) (how : ending) (events : list E) : M S pyval :=
  match events with
  | [] =>
      match how with
      | Closed => orelse
      | Broken e => raise e
      end
  | event :: rest =>
      r <- body event ;;
      match r with
      | Some v => ret v
      | None => for_each body orelse how rest
      end
  end.

(** The four readiness loops over a generator that yields [events] and
    then stops as [how] says. *)
Definition pod_create_stream (how : ending) (events : list PodEvent)
  : M Pod.t pyval :=
  for_each
    (fun event =>
       ready <- py_and (ret (is_running event))
                       (n <- self_name ;; ret (named event n)) ;;
       if ready then
         stop ;;
         nn <- namespaced_name ;;
         tell (LogInfo ("Pod created " ++ nn)%string) ;;
         ret (Some PyTrue)
       else
         deleted <- py_and (ret (is_deleted event))
                           (n <- self_name ;; ret (named event n)) ;;
         if deleted then
           stop ;;
           nn <- namespaced_name ;;
           tell (LogWarning ("Pod deleted " ++ nn)%string) ;;
           ret (Some PyFalse)
         else ret None)
    (nn <- namespaced_name ;;
     tell (LogWarning ("Unable to get created pod " ++ nn)%string) ;;
     ret PyFalse)
    how events.

Definition deployment_create_stream (how : ending)
    (events : list DeploymentEvent) : M Deployment.t pyval :=
  for_each
    (fun event =>
       ready <- py_and
                  (r <- Deployment.self_replicas ;;
                   ret (opt_eqb Z.eqb
                          (available_replicas (Event.status event)) r))
                  (n <- self_name ;; ret (named event n)) ;;
       if ready then stop ;; ret (Some PyTrue)
       else
         deleted <- py_and (ret (is_deleted event))
                           (n <- self_name ;; ret (named event n)) ;;
         if deleted then stop ;; ret (Some PyFalse)
         else ret None)
    (nn <- namespaced_name ;;
     print ("unable to get created deployment " ++ nn)%string ;;
     ret PyFalse)
    how events.

Definition pod_manager_stream (how : ending) (events : list PodEvent)
  : M PodManager.t pyval :=
  for_each
    (fun event =>
       ready <- py_and (ret (is_running event))
                       (md <- held_metadata ;;
                        ret (named event (name md))) ;;
       if ready then
         print (name (Event.metadata event)) ;;
         stop ;;
         ret (Some PyTrue)
       else if is_deleted event then
         stop ;;
         ret (Some PyFalse)
       else ret None)
    (ret PyNone)
    how events.

Definition deployment_manager_stream (how : ending)
    (events : list DeploymentEvent) : M DeploymentManager.t pyval :=
  for_each
    (fun event =>
       print (Event.type event) ;;
       ready <- py_and
                  (md <- held_metadata ;; ret (named event (name md)))
                  (sp <- held_spec ;;
                   ret (opt_eqb Z.eqb
                          (available_replicas (Event.status event))
                          (replicas sp))) ;;
       if ready then
         print (name (Event.metadata event)) ;;
         stop ;;
         ret (Some PyTrue)
       else if is_deleted event then
         stop ;;
         ret (Some PyFalse)
       else ret None)
    (ret PyNone)
    how events.

(** The shared shape, for a generator that may fail. *)
Fixpoint await_until {E} (p : protocol E) (how : ending) (events : list E)
  : result pyval * list effect :=
  match events with
  | [] =>
      match how with
      | Closed => (Return (timeout_value p), on_timeout p)
      | Broken e => (Raise e, [])
      end
  | e :: rest =>
      if is_ready p e then (Return PyTrue, each p e ++ on_ready p e)
      else if is_gone p e then (Return PyFalse, each p e ++ on_gone p)
      else let '(r, t) := await_until p how rest in (r, each p e ++ t)
  end.

(** The four ways a readiness loop ends, and no other: Ready or Deleted
    at the first event that passes a test, after [Watch.stop()]; or, every
    event yielded having passed neither test and the watch never stopped
    by the loop, the value [v] when the server closed the stream and the
    generator's own error when it raised. *)
Definition four_outcomes {E}
    (run : ending -> list E -> result pyval * list effect)
    (ready gone : E -> bool) (v : pyval) : Prop :=
  forall how events,
    (exists pre e post,
        events = pre ++ e :: post /\
        Forall (passed_over ready gone) pre /\ ready e = true /\
        fst (run how events) = Return PyTrue /\
        In WatchStop (snd (run how events))) \/
    (exists pre e post,
        events = pre ++ e :: post /\
        Forall (passed_over ready gone) pre /\
        ready e = false /\ gone e = true /\
        fst (run how events) = Return PyFalse /\
        In WatchStop (snd (run how events))) \/
    (Forall (passed_over ready gone) events /\
     ~ In WatchStop (snd (run how events)) /\
     fst (run how events)
     = match how with Closed => Return v | Broken e => Raise e end).

(* ================================================================= *)
(** * Properties *)

(** ** Dicts *)

Module DictFacts.

Lemma dict_get_set_same k v items :
  dict_get k (dict_set k v items) = Some v.
Proof.
  induction items as [|[k' v'] tl IH]; simpl.
  - now rewrite String.eqb_refl.
  - destruct (String.eqb k k') eqn:Hk; simpl; rewrite Hk; auto.
Qed.

Lemma dict_get_set_other k k' v items :
  String.eqb k' k = false ->
  dict_get k' (dict_set k v items) = dict_get k' items.
Proof.
  intros Hne.
  induction items as [|[k0 v0] tl IH]; simpl.
  - now rewrite Hne.
  - destruct (String.eqb k k0) eqn:Hk; simpl.
    + apply String.eqb_eq in Hk. subst k0. now rewrite Hne.
    + now rewrite IH.
Qed.

(** Storing the value a key already has changes nothing. *)
Lemma dict_set_unchanged k v items :
  dict_get k items = Some v -> dict_set k v items = items.
Proof.
  induction items as [|[k' v'] tl IH]; simpl; intros H.
  - discriminate.
  - destruct (String.eqb k k') eqn:Hk.
    + now inversion H.
    + now rewrite IH.
Qed.

Lemma mem_false_neq k k' ks :
  mem k (k' :: ks) = false -> String.eqb k k' = false /\ mem k ks = false.
Proof. simpl. intros H. now apply orb_false_iff in H. Qed.

Lemma dict_get_first k v tl :
  dict_get k ((k, v) :: tl) = Some v.
Proof. simpl. now rewrite String.eqb_refl. Qed.

End DictFacts.

(** ** The merge *)

Module MergeFacts.
Import DictFacts JsonMerge.

Section items.
Variable f : json -> json -> json.

(** Keys the override does not bind keep their value. *)
Lemma merge_items_other k hitems : forall acc,
  mem k (keys hitems) = false ->
  dict_get k (merge_items f hitems acc) = dict_get k acc.
Proof.
  induction hitems as [|[k' v'] tl IH]; simpl; intros acc Hk; auto.
  apply orb_false_iff in Hk. destruct Hk as [Hne Hk].
  rewrite IH by exact Hk.
  now apply dict_get_set_other.
Qed.

(** A key the override binds once ends up with the merged value. *)
Lemma merge_items_bound hitems : forall acc k v,
  unique (keys hitems) = true ->
  In (k, v) hitems ->
  dict_get k (merge_items f hitems acc)
  = Some (match dict_get k acc with Some bv => f bv v | None => v end).
Proof.
  induction hitems as [|[k' v'] tl IH]; simpl; intros acc k v Hu Hin.
  - contradiction.
  - apply andb_true_iff in Hu. destruct Hu as [Hfresh Hu].
    apply negb_true_iff in Hfresh.
    destruct Hin as [Heq | Hin].
    + inversion Heq; subst k' v'.
      rewrite merge_items_other by exact Hfresh.
      now rewrite dict_get_set_same.
    + rewrite (IH _ k v Hu Hin).
      assert (Hne : String.eqb k k' = false).
      { destruct (String.eqb k k') eqn:E; auto.
        apply String.eqb_eq in E. subst k'.
        assert (mem k (keys tl) = true) as Hm.
        { clear -Hin. induction tl as [|[a b] tl IH]; simpl in *.
          - contradiction.
          - destruct Hin as [H|H].
            + inversion H. now rewrite String.eqb_refl.
            + rewrite (IH H). apply orb_true_r. }
        congruence. }
      now rewrite dict_get_set_other.
Qed.

(** Merging items that are already in place, each a fixed point of its
    own merge, leaves the dict as it is. *)
Lemma merge_items_fixed hitems : forall acc,
  (forall k v, In (k, v) hitems ->
               exists w, dict_get k acc = Some w /\ f w v = w) ->
  merge_items f hitems acc = acc.
Proof.
  induction hitems as [|[k v] tl IH]; simpl; intros acc H; auto.
  destruct (H k v (or_introl eq_refl)) as [w [Hget Hw]].
  rewrite Hget, Hw, (dict_set_unchanged _ _ Hget).
  apply IH. intros k' v' Hin. apply H. now right.
Qed.
End items.

Lemma well_formed_dict items :
  well_formed (JDict items) = true ->
  unique (keys items) = true /\
  forall k v, In (k, v) items -> well_formed v = true.
Proof.
  simpl. intros H. apply andb_true_iff in H. destruct H as [Hu Hv].
  split; auto.
  clear Hu. induction items as [|[k' v'] tl IH]; simpl; intros k v Hin.
  - contradiction.
  - apply andb_true_iff in Hv. destruct Hv as [Hv Htl].
    destruct Hin as [Heq | Hin].
    + now inversion Heq; subst.
    + eapply IH; eauto.
Qed.

Lemma unique_first_binding items : forall k v,
  unique (keys items) = true -> In (k, v) items ->
  dict_get k items = Some v.
Proof.
  induction items as [|[k' v'] tl IH]; simpl; intros k v Hu Hin.
  - contradiction.
  - apply andb_true_iff in Hu. destruct Hu as [Hfresh Hu].
    apply negb_true_iff in Hfresh.
    destruct Hin as [Heq | Hin].
    + inversion Heq; subst. now rewrite String.eqb_refl.
    + destruct (String.eqb k k') eqn:E.
      * apply String.eqb_eq in E. subst k'.
        assert (mem k (keys tl) = true) as Hm.
        { clear -Hin. induction tl as [|[a b] tl IH]; simpl in *.
          - contradiction.
          - destruct Hin as [H|H].
            + inversion H. now rewrite String.eqb_refl.
            + rewrite (IH H). apply orb_true_r. }
        congruence.
      * now apply IH.
Qed.

(** A document merged into itself is unchanged. *)
Lemma merge_self h : well_formed h = true -> merge h h = h.
Proof.
  induction h as [| | | | l _ | items IH] using json_induction;
    intros Hwf; try reflexivity.
  destruct (well_formed_dict _ Hwf) as [Hu Hv].
  simpl. f_equal.
  apply merge_items_fixed. intros k v Hin.
  exists v. split.
  - now apply unique_first_binding.
  - rewrite Forall_forall in IH. apply (IH (k, v) Hin). eauto.
Qed.

(** Merging the same override a second time changes nothing. *)
Lemma merge_idempotent h : well_formed h = true ->
  forall b, merge (merge b h) h = merge b h.
Proof.
  induction h as [| | | | l _ | items IH] using json_induction;
    intros Hwf base; try reflexivity.
  destruct (well_formed_dict _ Hwf) as [Hu Hv].
  destruct base as [ |b0|z0|s0|l0|bitems];
    try (change (merge (JDict items) (JDict items) = JDict items);
         now apply merge_self).
  simpl. f_equal.
  apply merge_items_fixed. intros k v Hin.
  rewrite (merge_items_bound _ _ bitems k v Hu Hin).
  eexists. split; [reflexivity|].
  rewrite Forall_forall in IH.
  destruct (dict_get k bitems) as [bv|]; simpl.
  - apply (IH (k, v) Hin). eauto.
  - apply merge_self. eauto.
Qed.

End MergeFacts.

(** ** The four loops follow the shared shape *)

Module LoopFacts.

Ltac run :=
  unfold Deployment.self_replicas, namespaced_name, self_name,
    self_namespace, self_uid, model_metadata, model_spec, held_metadata,
    held_spec, py_and, py_or, print, stop, set_model, set_manifest;
  unfold bind, ret, raise, get, put, tell, lift, call.

Lemma entity_state {Sp St} (s : BaseObject.t (Obj.t Sp St)) md :
  metadata_of s = Some md ->
  exists mf sp st,
    s = {| manifest := mf;
           model := Some {| Obj.metadata := Some md;
                            Obj.spec := sp; Obj.status := st |} |}.
Proof.
  destruct s as [mf [[m sp st]|]]; unfold metadata_of; simpl; intros H;
    [subst; eauto | discriminate].
Qed.

Lemma held_state {Sp St} (s : held (Obj.t Sp St)) md :
  held_metadata_of s = Some md ->
  exists sp st,
    s = AsModel {| Obj.metadata := Some md;
                   Obj.spec := sp; Obj.status := st |}.
Proof.
  destruct s as [d|[m sp st]]; simpl; intros H;
    [discriminate | subst; eauto].
Qed.

Lemma pod_create_watch_await (s : Pod.t) md events :
  metadata_of s = Some md ->
  Pod.create_watch events s
  = (Return (fst (await (pod_create_protocol md) events)), s,
     snd (await (pod_create_protocol md) events)).
Proof.
  intros H. destruct (entity_state _ H) as (mf & sp & st & ->). clear H.
  induction events as [|e rest IH].
  - reflexivity.
  - cbn [Pod.create_watch await is_ready is_gone pod_create_protocol].
    unfold pod_ready, deleted_named. run.
    destruct (is_running e); cbn -[String.append];
      destruct (named e (name md)) eqn:En; cbn -[String.append];
      try reflexivity;
      destruct (is_deleted e); cbn -[String.append];
      rewrite ?En; cbn -[String.append];
      try reflexivity;
      rewrite IH;
      destruct (await (pod_create_protocol md) rest); reflexivity.
Qed.

Lemma entity_state_spec {Sp St} (s : BaseObject.t (Obj.t Sp St)) md sp :
  metadata_of s = Some md -> spec_of s = Some sp ->
  exists mf st,
    s = {| manifest := mf;
           model := Some {| Obj.metadata := Some md;
                            Obj.spec := Some sp; Obj.status := st |} |}.
Proof.
  destruct s as [mf [[m sp' st]|]]; unfold metadata_of, spec_of; simpl;
    intros H H'; [subst; eauto | discriminate].
Qed.

Lemma held_state_spec {Sp St} (s : held (Obj.t Sp St)) md sp :
  held_metadata_of s = Some md -> held_spec_of s = Some sp ->
  exists st,
    s = AsModel {| Obj.metadata := Some md;
                   Obj.spec := Some sp; Obj.status := st |}.
Proof.
  destruct s as [d|[m sp' st]]; simpl; intros H H';
    [discriminate | subst; eauto].
Qed.

Lemma deployment_create_watch_await (s : Deployment.t) md sp events :
  metadata_of s = Some md -> spec_of s = Some sp ->
  Deployment.create_watch events s
  = (Return (fst (await (deployment_create_protocol md (replicas sp)) events)),
     s,
     snd (await (deployment_create_protocol md (replicas sp)) events)).
Proof.
  intros H H'. destruct (entity_state_spec _ H H') as (mf & st & ->).
  clear H H'.
  induction events as [|e rest IH].
  - reflexivity.
  - cbn [Deployment.create_watch await is_ready is_gone
           deployment_create_protocol].
    unfold deployment_ready, deleted_named. run.
    cbn -[String.append].
    destruct (opt_eqb Z.eqb (available_replicas (Event.status e))
                (replicas sp)); cbn -[String.append];
      destruct (named e (name md)) eqn:En; cbn -[String.append];
      try reflexivity;
      destruct (is_deleted e); cbn -[String.append];
      rewrite ?En; cbn -[String.append];
      try reflexivity;
      rewrite IH;
      destruct (await (deployment_create_protocol md (replicas sp)) rest);
      reflexivity.
Qed.

Lemma pod_manager_ready_watch_await (s : PodManager.t) md events :
  held_metadata_of s = Some md ->
  PodManager.ready_watch events s
  = (Return (fst (await (pod_manager_protocol md) events)), s,
     snd (await (pod_manager_protocol md) events)).
Proof.
  intros H. destruct (held_state _ H) as (sp & st & ->). clear H.
  induction events as [|e rest IH].
  - reflexivity.
  - cbn [PodManager.ready_watch await is_ready is_gone pod_manager_protocol].
    unfold pod_ready. run.
    destruct (is_running e); cbn -[String.append];
      destruct (named e (name md)) eqn:En; cbn -[String.append];
      try reflexivity;
      destruct (is_deleted e); cbn -[String.append];
      try reflexivity;
      rewrite IH;
      destruct (await (pod_manager_protocol md) rest); reflexivity.
Qed.

Lemma deployment_manager_ready_watch_await
    (s : DeploymentManager.t) md sp events :
  held_metadata_of s = Some md -> held_spec_of s = Some sp ->
  DeploymentManager.ready_watch events s
  = (Return
       (fst (await (deployment_manager_protocol md (replicas sp)) events)),
     s,
     snd (await (deployment_manager_protocol md (replicas sp)) events)).
Proof.
  intros H H'. destruct (held_state_spec _ H H') as (st & ->). clear H H'.
  induction events as [|e rest IH].
  - reflexivity.
  - cbn [DeploymentManager.ready_watch await is_ready is_gone each
           deployment_manager_protocol].
    unfold deployment_manager_ready. run. cbn -[String.append].
    destruct (named e (name md)) eqn:En; cbn -[String.append];
      [destruct (opt_eqb Z.eqb (available_replicas (Event.status e))
                   (replicas sp)); cbn -[String.append] | ];
      try reflexivity;
      destruct (is_deleted e); cbn -[String.append];
      try reflexivity;
      rewrite IH;
      destruct (await (deployment_manager_protocol md (replicas sp)) rest);
      reflexivity.
Qed.

End LoopFacts.

(** ** Properties of the shared shape *)

Module WatcherFacts.

Section protocol.
Context {E : Type}.
Variable p : protocol E.

Lemma await_passed_over pre : forall rest,
  Forall (passed_over (is_ready p) (is_gone p)) pre ->
  await p (pre ++ rest)
  = (fst (await p rest), flat_map (each p) pre ++ snd (await p rest)).
Proof.
  induction pre as [|x pre IH]; intros rest Hpre; simpl.
  - now destruct (await p rest).
  - inversion Hpre as [|? ? [Hr Hg] Hpre']; subst.
    rewrite Hr, Hg, (IH rest Hpre'). simpl.
    now rewrite app_assoc.
Qed.

Lemma await_ready e post :
  is_ready p e = true ->
  await p (e :: post) = (PyTrue, each p e ++ on_ready p e).
Proof. simpl. now intros ->. Qed.

Lemma await_gone e post :
  is_ready p e = false -> is_gone p e = true ->
  await p (e :: post) = (PyFalse, each p e ++ on_gone p).
Proof. simpl. now intros -> ->. Qed.

Hypothesis ready_stops : forall e, In WatchStop (on_ready p e).
Hypothesis gone_stops : In WatchStop (on_gone p).
Hypothesis timeout_not_true : timeout_value p <> PyTrue.

Lemma run_resolves_ready_at_first :
  resolves_ready_at_first (run_of p) (is_ready p) (is_gone p).
Proof.
  intros pre e post Hpre He. unfold run_of.
  rewrite (await_passed_over _ Hpre), (await_ready e _ He). simpl.
  repeat split.
  - rewrite !in_app_iff. auto.
  - intros post'.
    now rewrite (await_passed_over _ Hpre), (await_ready e _ He).
Qed.

Lemma run_resolves_deleted_at_first :
  resolves_deleted_at_first (run_of p) (is_ready p) (is_gone p).
Proof.
  intros pre e post Hpre Hr Hg. unfold run_of.
  rewrite (await_passed_over _ Hpre), (await_gone e _ Hr Hg). simpl.
  repeat split.
  - rewrite !in_app_iff. auto.
  - intros post'.
    now rewrite (await_passed_over _ Hpre), (await_gone e _ Hr Hg).
Qed.

Lemma run_ready_only_at_first :
  ready_only_at_first (run_of p) (is_ready p) (is_gone p).
Proof.
  intros events. unfold run_of. simpl.
  induction events as [|x rest IH]; simpl; intros H.
  - inversion H. contradiction.
  - destruct (is_ready p x) eqn:Hr.
    + exists [], x, rest. repeat split; auto.
    + destruct (is_gone p x) eqn:Hg; simpl in H.
      * discriminate.
      * destruct (await p rest) as [v t] eqn:Hrest. simpl in *.
        destruct (IH H) as (pre & e & post & -> & Hpre & He).
        exists (x :: pre), e, post. repeat split; auto.
        constructor; auto. now split.
Qed.

Lemma run_deleted_before_ready (matching : E -> bool) :
  (forall e, matching e = true -> is_gone p e = true) ->
  deleted_before_ready (run_of p) (is_ready p) matching.
Proof.
  intros Hm pre e post Hpre He Hr. unfold run_of. simpl.
  induction pre as [|x pre IH]; simpl.
  - rewrite Hr, (Hm _ He). simpl. rewrite in_app_iff. auto.
  - inversion Hpre as [|? ? Hx Hpre']; subst.
    rewrite Hx.
    destruct (is_gone p x).
    + simpl. rewrite in_app_iff. auto.
    + destruct (IH Hpre') as [Hv Ht].
      destruct (await p (pre ++ e :: post)) as [v t]. simpl in *.
      rewrite in_app_iff. auto.
Qed.

Lemma run_passes_over (skippable : E -> Prop) :
  (forall e, skippable e -> passed_over (is_ready p) (is_gone p) e) ->
  passes_over (run_of p) skippable (each p).
Proof.
  intros Hs e rest He. destruct (Hs e He) as [Hr Hg].
  unfold run_of. simpl. rewrite Hr, Hg.
  now destruct (await p rest).
Qed.

Lemma run_then_ready (skippable : E -> Prop) :
  (forall e, skippable e -> passed_over (is_ready p) (is_gone p) e) ->
  then_ready (run_of p) (is_ready p) skippable.
Proof.
  intros Hs e e' post He He'. destruct (Hs e He) as [Hr Hg].
  unfold run_of. simpl. now rewrite Hr, Hg, He'.
Qed.

Lemma run_times_out :
  times_out (run_of p) (is_ready p) (is_gone p)
    (timeout_value p) (each p) (on_timeout p).
Proof.
  intros events Hall. unfold run_of.
  rewrite <- (app_nil_r events) at 1 2.
  now rewrite (await_passed_over _ Hall).
Qed.
End protocol.

(** The properties follow a loop that runs as its protocol does. *)
Section transfer.
Context {E : Type}.
Variables run run' : list E -> result pyval * list effect.
Hypothesis same : forall events, run events = run' events.
Variables ready gone : E -> bool.

Lemma transfer_ready_at_first :
  resolves_ready_at_first run' ready gone ->
  resolves_ready_at_first run ready gone.
Proof.
  intros H pre e post Hpre He. rewrite same.
  destruct (H pre e post Hpre He) as (H1 & H2 & H3).
  repeat split; auto. intros post'. now rewrite !same.
Qed.

Lemma transfer_deleted_at_first :
  resolves_deleted_at_first run' ready gone ->
  resolves_deleted_at_first run ready gone.
Proof.
  intros H pre e post Hpre Hr Hg. rewrite same.
  destruct (H pre e post Hpre Hr Hg) as (H1 & H2 & H3).
  repeat split; auto. intros post'. now rewrite !same.
Qed.

Lemma transfer_ready_only_at_first :
  ready_only_at_first run' ready gone ->
  ready_only_at_first run ready gone.
Proof. intros H events. rewrite same. apply H. Qed.

Lemma transfer_deleted_before_ready matching :
  deleted_before_ready run' ready matching ->
  deleted_before_ready run ready matching.
Proof. intros H pre e post. rewrite same. apply H. Qed.

Lemma transfer_passes_over skippable noise :
  passes_over run' skippable noise -> passes_over run skippable noise.
Proof. intros H e rest. rewrite !same. apply H. Qed.

Lemma transfer_then_ready skippable :
  then_ready run' ready skippable -> then_ready run ready skippable.
Proof. intros H e e' post. rewrite same. apply H. Qed.

Lemma transfer_times_out v noise last :
  times_out run' ready gone v noise last ->
  times_out run ready gone v noise last.
Proof. intros H events. rewrite same. apply H. Qed.
End transfer.

End WatcherFacts.

(** ** The loops as runs of their protocols *)

Module RunFacts.
Import LoopFacts WatcherFacts.

Lemma pod_create_run_shape (s : Pod.t) md :
  metadata_of s = Some md ->
  forall events,
    pod_create_run s events = run_of (pod_create_protocol md) events.
Proof.
  intros H events. unfold pod_create_run, outcome, run_of.
  now rewrite (pod_create_watch_await _ events H).
Qed.

Lemma deployment_create_run_shape (s : Deployment.t) md sp :
  metadata_of s = Some md -> spec_of s = Some sp ->
  forall events,
    deployment_create_run s events
    = run_of (deployment_create_protocol md (replicas sp)) events.
Proof.
  intros H H' events. unfold deployment_create_run, outcome, run_of.
  now rewrite (deployment_create_watch_await _ events H H').
Qed.

Lemma pod_manager_run_shape (s : PodManager.t) md :
  held_metadata_of s = Some md ->
  forall events,
    pod_manager_run s events = run_of (pod_manager_protocol md) events.
Proof.
  intros H events. unfold pod_manager_run, outcome, run_of.
  now rewrite (pod_manager_ready_watch_await _ events H).
Qed.

Lemma deployment_manager_run_shape (s : DeploymentManager.t) md sp :
  held_metadata_of s = Some md -> held_spec_of s = Some sp ->
  forall events,
    deployment_manager_run s events
    = run_of (deployment_manager_protocol md (replicas sp)) events.
Proof.
  intros H H' events. unfold deployment_manager_run, outcome, run_of.
  now rewrite (deployment_manager_ready_watch_await _ events H H').
Qed.

End RunFacts.

(** ** The readiness loops *)

Module WatchLoop.
Import WatcherFacts RunFacts.

Ltac stops := simpl; intros; auto; try discriminate.

Lemma resolves_once_of_protocol {E} (p : protocol E) run :
  (forall events, run events = run_of p events) ->
  (forall e, In WatchStop (on_ready p e)) ->
  In WatchStop (on_gone p) ->
  timeout_value p <> PyTrue ->
  resolves_once run (is_ready p) (is_gone p).
Proof.
  intros Hrun H1 H2 H3. split; [|split].
  - eapply transfer_ready_at_first; [exact Hrun|].
    now apply run_resolves_ready_at_first.
  - eapply transfer_ready_only_at_first; [exact Hrun|].
    now apply run_ready_only_at_first.
  - eapply transfer_deleted_at_first; [exact Hrun|].
    now apply run_resolves_deleted_at_first.
Qed.

(** Each of the four readiness loops, reading a stream whose first
    events it passes over, returns [True] at the first event that matches
    the target's name and satisfies the readiness predicate
    ([status.phase == 'Running'], resp.
    [status.available_replicas == spec.replicas]); it returns [True] at no
    other event; [Watch.stop()] is in the effects of a resolved run, Ready
    or Deleted; and the run is the same whatever follows the resolving
    event, which the loop therefore never looks at. *)
Theorem ready_at_first_matching_event :
  (forall (s : Pod.t) md,
     metadata_of s = Some md ->
     resolves_once (pod_create_run s)
       (pod_ready (name md)) (deleted_named (name md))) /\
  (forall (s : Deployment.t) md sp,
     metadata_of s = Some md -> spec_of s = Some sp ->
     resolves_once (deployment_create_run s)
       (deployment_ready (name md) (replicas sp))
       (deleted_named (name md))) /\
  (forall (s : PodManager.t) md,
     held_metadata_of s = Some md ->
     resolves_once (pod_manager_run s) (pod_ready (name md)) is_deleted) /\
  (forall (s : DeploymentManager.t) md sp,
     held_metadata_of s = Some md -> held_spec_of s = Some sp ->
     resolves_once (deployment_manager_run s)
       (deployment_manager_ready (name md) (replicas sp)) is_deleted).
Proof.
  split; [|split; [|split]]; intros.
  - apply (resolves_once_of_protocol (p := pod_create_protocol md));
      [now apply pod_create_run_shape | | | ]; stops.
  - apply (resolves_once_of_protocol
             (p := deployment_create_protocol md (replicas sp)));
      [now apply deployment_create_run_shape | | | ]; stops.
  - apply (resolves_once_of_protocol (p := pod_manager_protocol md));
      [now apply pod_manager_run_shape | | | ]; stops.
  - apply (resolves_once_of_protocol
             (p := deployment_manager_protocol md (replicas sp)));
      [now apply deployment_manager_run_shape | | | ]; stops.
Qed.

Lemma ready_at_first_matching_event_witness :
  metadata_of sample_pod = Some sample_meta /\
  fst (pod_create_run sample_pod
         [pod_event "ADDED" sample_meta "Pending";
          pod_event "MODIFIED" sample_meta "Running";
          pod_event "DELETED" sample_meta "Running"])
  = Return PyTrue.
Proof.
  split; [reflexivity|].
  destruct (proj1 ready_at_first_matching_event
              sample_pod sample_meta eq_refl) as [H _].
  refine (proj1 (H [pod_event "ADDED" sample_meta "Pending"]
                   (pod_event "MODIFIED" sample_meta "Running")
                   [pod_event "DELETED" sample_meta "Running"] _ _)).
  - constructor; [split; reflexivity | constructor].
  - reflexivity.
Defined.

Lemma passes_over_of_protocol {E} (p : protocol E) run
    (skippable : E -> Prop) :
  (forall events, run events = run_of p events) ->
  (forall e, skippable e -> passed_over (is_ready p) (is_gone p) e) ->
  passes_over run skippable (each p) /\
  then_ready run (is_ready p) skippable.
Proof.
  intros Hrun Hs. split.
  - eapply transfer_passes_over; [exact Hrun|].
    now apply run_passes_over.
  - eapply transfer_then_ready; [exact Hrun|].
    now apply run_then_ready.
Qed.






(** C1, as the claim states it, fails: every loop tests readiness before
    deletion, so the DELETED event of the target itself, carrying a
    snapshot whose phase is 'Running' and arriving first in the stream,
    makes [Pod.create]'s loop return [True] (and log "Pod created"), not
    [False]. *)
Lemma deleted_event_of_running_pod_resolves_ready :
  deleted_named "sample-pod" (pod_event "DELETED" sample_meta "Running")
  = true /\
  pod_create_run sample_pod [pod_event "DELETED" sample_meta "Running"]
  = (Return PyTrue,
     [WatchStop; LogInfo "Pod created default/sample-pod"]) /\
  fst (pod_create_run sample_pod
         [pod_event "DELETED" sample_meta "Running"])
  <> Return PyFalse.
Proof.
  split; [reflexivity|]. split; [reflexivity|]. discriminate.
Qed.

Lemma deleted_before_ready_of_protocol {E} (p : protocol E) run matching :
  (forall events, run events = run_of p events) ->
  In WatchStop (on_gone p) ->
  (forall e, matching e = true -> is_gone p e = true) ->
  deleted_before_ready run (is_ready p) matching.
Proof.
  intros Hrun Hstop Hm.
  eapply transfer_deleted_before_ready; [exact Hrun|].
  now apply run_deleted_before_ready.
Qed.

Lemma deleted_named_is_deleted {St} n (e : Event.t St) :
  deleted_named n e = true -> is_deleted e = true.
Proof. unfold deleted_named. intros H. now apply andb_true_iff in H. Qed.

(** C1, amended.  In each of the four loops a DELETED event that carries
    the target's name and does not satisfy the readiness predicate makes
    the loop return [False], with [Watch.stop()] among the effects,
    whenever no event before it was ready; in particular when it arrives
    before any event that satisfies the predicate. *)
Theorem matching_deleted_event_resolves_deleted :
  (forall (s : Pod.t) md,
     metadata_of s = Some md ->
     deleted_before_ready (pod_create_run s)
       (pod_ready (name md)) (deleted_named (name md))) /\
  (forall (s : Deployment.t) md sp,
     metadata_of s = Some md -> spec_of s = Some sp ->
     deleted_before_ready (deployment_create_run s)
       (deployment_ready (name md) (replicas sp))
       (deleted_named (name md))) /\
  (forall (s : PodManager.t) md,
     held_metadata_of s = Some md ->
     deleted_before_ready (pod_manager_run s)
       (pod_ready (name md)) (deleted_named (name md))) /\
  (forall (s : DeploymentManager.t) md sp,
     held_metadata_of s = Some md -> held_spec_of s = Some sp ->
     deleted_before_ready (deployment_manager_run s)
       (deployment_manager_ready (name md) (replicas sp))
       (deleted_named (name md))).
Proof.
  split; [|split; [|split]]; intros.
  - apply (deleted_before_ready_of_protocol (p := pod_create_protocol md));
      [now apply pod_create_run_shape | simpl; auto | auto].
  - apply (deleted_before_ready_of_protocol
             (p := deployment_create_protocol md (replicas sp)));
      [now apply deployment_create_run_shape | simpl; auto | auto].
  - apply (deleted_before_ready_of_protocol (p := pod_manager_protocol md));
      [now apply pod_manager_run_shape | simpl; auto
      | apply deleted_named_is_deleted].
  - apply (deleted_before_ready_of_protocol
             (p := deployment_manager_protocol md (replicas sp)));
      [now apply deployment_manager_run_shape | simpl; auto
      | apply deleted_named_is_deleted].
Qed.

Lemma matching_deleted_event_resolves_deleted_witness :
  metadata_of sample_pod = Some sample_meta /\
  fst (pod_create_run sample_pod
         [pod_event "ADDED" sample_meta "Pending";
          pod_event "DELETED" sample_meta "Pending";
          pod_event "ADDED" sample_meta "Running"])
  = Return PyFalse.
Proof.
  split; [reflexivity|].
  refine (proj1 (proj1 matching_deleted_event_resolves_deleted
                   sample_pod sample_meta eq_refl
                   [pod_event "ADDED" sample_meta "Pending"]
                   (pod_event "DELETED" sample_meta "Pending")
                   [pod_event "ADDED" sample_meta "Running"] _ _ _)).
  - constructor; [reflexivity | constructor].
  - reflexivity.
  - reflexivity.
Defined.

(** The loops of [model.py] test the name in both branches: an event of
    another object is passed over, DELETED or not. *)
Lemma entity_loops_ignore_foreign_events :
  (forall (s : Pod.t) md,
     metadata_of s = Some md ->
     passes_over (pod_create_run s)
       (fun e => named e (name md) = false) nothing) /\
  (forall (s : Deployment.t) md sp,
     metadata_of s = Some md -> spec_of s = Some sp ->
     passes_over (deployment_create_run s)
       (fun e => named e (name md) = false) nothing).
Proof.
  split; intros.
  - apply (passes_over_of_protocol (p := pod_create_protocol md));
      [now apply pod_create_run_shape|].
    intros e He. split; simpl; unfold pod_ready, deleted_named;
      rewrite He; apply andb_false_r.
  - apply (passes_over_of_protocol
             (p := deployment_create_protocol md (replicas sp)));
      [now apply deployment_create_run_shape|].
    intros e He. split; simpl; unfold deployment_ready, deleted_named;
      rewrite He; apply andb_false_r.
Qed.

(** C2, at the failing input.  [PodManager.ready] and
    [DeploymentManager.ready] test [event["type"] == "DELETED"] without
    the name: the DELETED event of another object stops the watch and
    returns [False], and the ready event of the target that follows is
    never read.  [Pod.create] and [Deployment.create], on the same
    streams, pass the foreign event over and return [True]. *)
Theorem manager_loops_resolve_on_foreign_deleted_event :
  named (pod_event "DELETED" other_meta "Pending") (name sample_meta)
  = false /\
  pod_manager_run sample_pod_manager
    [pod_event "DELETED" other_meta "Pending";
     pod_event "MODIFIED" sample_meta "Running"]
  = (Return PyFalse, [WatchStop]) /\
  fst (pod_create_run sample_pod
         [pod_event "DELETED" other_meta "Pending";
          pod_event "MODIFIED" sample_meta "Running"])
  = Return PyTrue /\
  deployment_manager_run nginx_deployment_manager
    [deployment_event "DELETED" other_meta (Some 1%Z);
     deployment_event "MODIFIED" nginx_meta (Some 3%Z)]
  = (Return PyFalse, [Printed "DELETED"; WatchStop]) /\
  fst (deployment_create_run nginx_deployment
         [deployment_event "DELETED" other_meta (Some 1%Z);
          deployment_event "MODIFIED" nginx_meta (Some 3%Z)])
  = Return PyTrue.
Proof. repeat split; reflexivity. Qed.

Lemma times_out_of_protocol {E} (p : protocol E) run :
  (forall events, run events = run_of p events) ->
  times_out run (is_ready p) (is_gone p)
    (timeout_value p) (each p) (on_timeout p).
Proof.
  intros Hrun. eapply transfer_times_out; [exact Hrun|].
  apply run_times_out.
Qed.

(** A stream of passed-over events runs out: [Pod.create] and
    [Deployment.create] report and return [False], the two [ready]
    methods fall off the end and return [None].  No run raises. *)
Lemma loops_time_out :
  (forall (s : Pod.t) md,
     metadata_of s = Some md ->
     times_out (pod_create_run s)
       (pod_ready (name md)) (deleted_named (name md)) PyFalse nothing
       [LogWarning
          ("Unable to get created pod " ++ full_name md)%string]) /\
  (forall (s : Deployment.t) md sp,
     metadata_of s = Some md -> spec_of s = Some sp ->
     times_out (deployment_create_run s)
       (deployment_ready (name md) (replicas sp))
       (deleted_named (name md)) PyFalse nothing
       [Printed ("unable to get created deployment "
               ++ full_name md)%string]) /\
  (forall (s : PodManager.t) md,
     held_metadata_of s = Some md ->
     times_out (pod_manager_run s)
       (pod_ready (name md)) is_deleted PyNone nothing []) /\
  (forall (s : DeploymentManager.t) md sp,
     held_metadata_of s = Some md -> held_spec_of s = Some sp ->
     times_out (deployment_manager_run s)
       (deployment_manager_ready (name md) (replicas sp)) is_deleted
       PyNone type_printed []).
Proof.
  split; [|split; [|split]]; intros.
  - apply (times_out_of_protocol (p := pod_create_protocol md)).
    now apply pod_create_run_shape.
  - apply (times_out_of_protocol
             (p := deployment_create_protocol md (replicas sp))).
    now apply deployment_create_run_shape.
  - apply (times_out_of_protocol (p := pod_manager_protocol md)).
    now apply pod_manager_run_shape.
  - apply (times_out_of_protocol
             (p := deployment_manager_protocol md (replicas sp))).
    now apply deployment_manager_run_shape.
Qed.

(** C4, at the failing input.  The stream holds events of another pod
    only: none matches the target, DELETED or not.  [Pod.create] times
    out on it (returns [False] without stopping the watch, after the
    "Unable to get created pod" warning); [PodManager.ready] resolves
    Deleted at the foreign DELETED event (stops the watch and returns
    [False]) instead of falling off the end with [None], its value for a
    stream that ran out. *)
Theorem manager_loop_misses_timeout :
  Forall (fun e => named e (name sample_meta) = false)
    [pod_event "ADDED" other_meta "Running";
     pod_event "DELETED" other_meta "Running"] /\
  pod_manager_run sample_pod_manager
    [pod_event "ADDED" other_meta "Running";
     pod_event "DELETED" other_meta "Running"]
  = (Return PyFalse, [WatchStop]) /\
  pod_manager_run sample_pod_manager
    [pod_event "ADDED" other_meta "Running"]
  = (Return PyNone, []) /\
  pod_create_run sample_pod
    [pod_event "ADDED" other_meta "Running";
     pod_event "DELETED" other_meta "Running"]
  = (Return PyFalse,
     [LogWarning "Unable to get created pod default/sample-pod"]).
Proof.
  split; [repeat constructor|]. repeat split; reflexivity.
Qed.

End WatchLoop.

(** ** Manifests and construction *)

Module ManifestFacts.
Import MergeFacts LoopFacts.

(** C7.  [merge_partial_manifest] with the same partial manifest a second
    time leaves the object as the first call left it (and, like the
    first, returns [None] without any effect), for every partial manifest
    that is a Python document, that is, in which no dict binds a key
    twice.  The merge is the one of section 4.1 of the spec. *)
Theorem merge_partial_manifest_idempotent
    (Model : Type) (self : BaseObject.t Model) (partial_manifest : json) :
  well_formed partial_manifest = true ->
  (merge_partial_manifest partial_manifest ;;
   merge_partial_manifest partial_manifest) self
  = merge_partial_manifest partial_manifest self.
Proof.
  intros Hwf. unfold merge_partial_manifest, set_manifest.
  unfold bind, get, put. simpl.
  now rewrite (merge_idempotent _ Hwf).
Qed.

Lemma merge_partial_manifest_idempotent_witness :
  well_formed namespace_override = true /\
  (merge_partial_manifest namespace_override ;;
   merge_partial_manifest namespace_override)
    {| manifest := pod_manifest; model := @None V1Pod |}
  = merge_partial_manifest namespace_override
      {| manifest := pod_manifest; model := @None V1Pod |}.
Proof.
  split; [reflexivity|].
  apply (merge_partial_manifest_idempotent
           {| manifest := pod_manifest; model := @None V1Pod |}
           namespace_override).
  reflexivity.
Defined.

(** What the merge of the sample override gives. *)
Example merge_sample :
  JsonMerge.merge pod_manifest namespace_override
  = JDict [("apiVersion", JStr "v1");
           ("kind", JStr "Pod");
           ("metadata", JDict [("name", JStr "sample-pod2");
                               ("labels", JDict [("app", JStr "l1");
                                                 ("tier", JStr "web")]);
                               ("namespace", JStr "default")]);
           ("spec", JDict [("containers",
                            JList [JDict [("image", JStr "busybox");
                                          ("name", JStr "sleep")]])])].
Proof. reflexivity. Qed.

Section construction.
Context {Sp St : Type}.
Variable message : string.
Variable default_manifest : json.
Variable deserialize : json -> result (Obj.t Sp St).

(** The constructor up to the check: the object holds the merged
    manifest and no model, and nothing has been emitted. *)
Lemma entity_init_checks body partial_manifest :
  entity__init__ message default_manifest deserialize
    body partial_manifest BaseObject.init
  = (missing <- py_or (not_specified "name")
                      (not_specified "namespace") ;;
     if missing then raise (PyException message)
     else
       s <- get ;;
       m <- lift (deserialize (manifest s)) ;;
       set_model m)
      {| manifest :=
           merged_manifest default_manifest body partial_manifest;
         model := None |}.
Proof.
  unfold entity__init__, merged_manifest.
  set (rest := bind (py_or _ _) _).
  unfold merge_partial_manifest, set_manifest.
  destruct (truthy partial_manifest); unfold bind, get, put, ret; simpl;
    match goal with
    | |- context [rest ?s] =>
        destruct (rest s) as [[r s'] t]; reflexivity
    end.
Qed.

(** The check of lines 69 and 200, evaluated. *)
Lemma identity_check (m : json) (mo : option (Obj.t Sp St)) :
  py_or (not_specified "name") (not_specified "namespace")
    {| manifest := m; model := mo |}
  = (if metadata_is_mapping m
     then Return (missing_or_empty "name" m
                  || missing_or_empty "namespace" m)
     else Raise AttributeError,
     {| manifest := m; model := mo |}, []).
Proof.
  unfold py_or, not_specified, missing_or_empty, metadata_is_mapping.
  unfold bind, get, lift, ret.
  destruct m as [ |b|z|str|l|items]; try reflexivity.
  cbn [manifest py_get lookup].
  destruct (dict_get "metadata" items) as [[ |b|z|str|l|md]|] eqn:Hmd;
    try reflexivity.
  cbn [py_get lookup].
  destruct (dict_get "name" md) as [v|] eqn:Hn;
    destruct (dict_get "namespace" md) as [w|] eqn:Hns;
    try destruct (truthy v); try destruct (truthy w) eqn:Hw;
    cbn -[truthy]; rewrite ?Hmd; cbn -[truthy]; rewrite ?Hns, ?Hw;
    reflexivity.
Qed.

Lemma entity_init_fails body partial_manifest :
  let checked :=
    merged_manifest default_manifest body partial_manifest in
  missing_or_empty "name" checked = true \/
  missing_or_empty "namespace" checked = true ->
  fails_validation
    (construct (entity__init__ message default_manifest deserialize
                  body partial_manifest))
    message checked.
Proof.
  intros checked Hmissing.
  unfold fails_validation, construct.
  rewrite entity_init_checks. fold checked.
  unfold bind at 1. rewrite identity_check.
  destruct (metadata_is_mapping checked).
  - assert (Hor : missing_or_empty "name" checked
                  || missing_or_empty "namespace" checked = true)
      by (apply orb_true_iff; exact Hmissing).
    rewrite Hor. eexists. split; reflexivity.
  - eexists. split; reflexivity.
Qed.

(** With both fields given, the object is built from what
    [deserialize] makes of the manifest. *)
Lemma entity_init_succeeds body partial_manifest o :
  let checked :=
    merged_manifest default_manifest body partial_manifest in
  metadata_is_mapping checked = true ->
  missing_or_empty "name" checked = false ->
  missing_or_empty "namespace" checked = false ->
  deserialize checked = Return o ->
  construct (entity__init__ message default_manifest deserialize
               body partial_manifest)
  = (Return {| manifest := checked; model := Some o |}, []).
Proof.
  intros checked Hmap Hname Hns Hd.
  unfold construct.
  rewrite entity_init_checks. fold checked.
  unfold bind at 1. rewrite identity_check, Hmap, Hname, Hns.
  unfold set_model, bind, get, put, lift. simpl. now rewrite Hd.
Qed.
End construction.

(** C8.  When [metadata.name] or [metadata.namespace] is missing or empty
    in the manifest the constructor checks (the body, or the class
    default, with the partial override merged in), [Pod(...)] and
    [Deployment(...)] raise and give no object, and the trace of the
    construction is empty: no remote call was issued.  The error is the
    [Exception] of lines 70 and 201 when the manifest is a mapping whose
    [metadata] is absent or a mapping; when it is not, the check's own
    [.get] raises [AttributeError]. *)
Theorem construction_fails_without_identity :
  forall default_manifest body partial_manifest,
    missing_or_empty "name"
      (merged_manifest default_manifest body partial_manifest) = true \/
    missing_or_empty "namespace"
      (merged_manifest default_manifest body partial_manifest) = true ->
    (forall deserialize,
       fails_validation
         (construct (Pod.__init__ default_manifest deserialize
                       body partial_manifest))
         "name & namespace both not specified while initializing pod"
         (merged_manifest default_manifest body partial_manifest)) /\
    (forall deserialize,
       fails_validation
         (construct (Deployment.__init__ default_manifest deserialize
                       body partial_manifest))
         "name & namespace both not specified while initializing deployment"
         (merged_manifest default_manifest body partial_manifest)).
Proof.
  intros default_manifest body partial_manifest Hmissing.
  split; intros deserialize; now apply entity_init_fails.
Qed.

(** The manifest of [main()] without its namespace: no pod is built. *)
Lemma construction_fails_without_identity_witness :
  missing_or_empty "namespace" (merged_manifest (JDict []) pod_manifest JNull)
  = true /\
  construct (Pod.__init__ (JDict []) (fun _ => Return sample_v1pod)
               pod_manifest JNull)
  = (Raise (PyException
              "name & namespace both not specified while initializing pod"),
     []).
Proof.
  split; [reflexivity|].
  destruct (proj1 (construction_fails_without_identity
                     (JDict []) pod_manifest JNull
                     (or_intror eq_refl))
              (fun _ => Return sample_v1pod)) as [e [Hr He]].
  rewrite Hr, He. reflexivity.
Defined.

(** With the namespace supplied by the partial override, the pod is
    built. *)
Example construction_with_override :
  construct (Pod.__init__ (JDict []) (fun _ => Return sample_v1pod)
               pod_manifest namespace_override)
  = (Return {| manifest := JsonMerge.merge pod_manifest namespace_override;
               model := Some sample_v1pod |}, []).
Proof. reflexivity. Qed.

End ManifestFacts.

(** ** Scoped lifecycles: [__enter__], [__exit__], [delete] *)

Module Lifecycle.
Import LoopFacts.

Ltac methods :=
  unfold Pod.__enter__, Pod.__exit__, Pod.create, Pod.delete,
    Deployment.__enter__, Deployment.__exit__, Deployment.create,
    Deployment.delete, PodManager.__enter__, PodManager.__exit__,
    PodManager.create, PodManager.ready, PodManager.delete,
    DeploymentManager.delete, outcome, state_after.

Lemma model_metadata_of {Sp St} (m : Obj.t Sp St) md :
  Obj.metadata m = Some md ->
  exists sp st,
    m = {| Obj.metadata := Some md; Obj.spec := sp; Obj.status := st |}.
Proof. destruct m as [x sp st]; simpl; intros ->; eauto. Qed.

(** C10.  [__enter__] of [Pod], [Deployment] and [PodManager] returns
    [self] for every stream of events the readiness wait may read, that
    is, whether the wait ends Ready, Deleted or TimedOut, once the create
    call has returned the created object (with its metadata, and for a
    deployment its spec): the failed wait is printed or logged, never
    raised. *)
Theorem enter_returns_self_whatever_readiness :
  (forall (s : Pod.t) md (m : V1Pod) md' events,
     metadata_of s = Some md -> Obj.metadata m = Some md' ->
     fst (outcome (Pod.__enter__ (Return m) events) s) = Return PySelf) /\
  (forall (s : Deployment.t) md (m : V1Deployment) md' sp events,
     metadata_of s = Some md ->
     Obj.metadata m = Some md' -> Obj.spec m = Some sp ->
     fst (outcome (Deployment.__enter__ (Return m) events) s)
     = Return PySelf) /\
  (forall (s : PodManager.t) (m : V1Pod) md' events,
     Obj.metadata m = Some md' ->
     fst (outcome (PodManager.__enter__ (Return m) events) s)
     = Return PySelf).
Proof.
  split; [|split].
  - intros s md m md' events Hs Hm.
    destruct (entity_state _ Hs) as (mf & sp & st & ->).
    destruct (model_metadata_of _ Hm) as (sp' & st' & ->).
    methods. run. cbn -[String.append Pod.create_watch].
    rewrite pod_create_watch_await with (md := md') by reflexivity.
    destruct (await (pod_create_protocol md') events) as [v t].
    destruct v; reflexivity.
  - intros s md m md' sp events Hs Hm Hsp.
    destruct (entity_state _ Hs) as (mf & sp0 & st & ->).
    destruct (model_metadata_of _ Hm) as (sp' & st' & ->).
    simpl in Hsp. subst sp'.
    methods. run. cbn -[String.append Deployment.create_watch].
    rewrite deployment_create_watch_await with (md := md') (sp := sp)
      by reflexivity.
    destruct (await (deployment_create_protocol md' (replicas sp)) events)
      as [v t].
    destruct v; reflexivity.
  - intros s m md' events Hm.
    destruct (model_metadata_of _ Hm) as (sp' & st' & ->).
    methods. run. cbn -[String.append PodManager.ready_watch].
    rewrite pod_manager_ready_watch_await with (md := md') by reflexivity.
    destruct (await (pod_manager_protocol md') events) as [v t].
    destruct v; reflexivity.
Qed.

(** The wait of [Pod.__enter__] times out and [self] is returned. *)
Lemma enter_returns_self_whatever_readiness_witness :
  (metadata_of sample_pod = Some sample_meta /\
   Obj.metadata sample_v1pod = Some sample_meta) /\
  fst (outcome (Pod.__enter__ (Return sample_v1pod)
                  [pod_event "MODIFIED" sample_meta "Pending"])
         sample_pod)
  = Return PySelf.
Proof.
  split; [split; reflexivity|].
  apply (proj1 enter_returns_self_whatever_readiness
           sample_pod sample_meta sample_v1pod sample_meta
           [pod_event "MODIFIED" sample_meta "Pending"]);
    reflexivity.
Defined.

(** What is emitted when the wait fails: [Pod.__enter__] logs and prints
    on a timeout; [Deployment.__enter__] emits nothing about a wait that
    ended Deleted. *)
Example pod_enter_timed_out :
  outcome (Pod.__enter__ (Return sample_v1pod)
             [pod_event "MODIFIED" sample_meta "Pending"]) sample_pod
  = (Return PySelf,
     [LogInfo "Creating pod default/sample-pod"; LogPretty;
      Api (create_namespaced_pod "default");
      Api (watch_list_namespaced_pod "default" 60);
      LogWarning "Unable to get created pod default/sample-pod";
      Printed "unable to get pod ready"]).
Proof. reflexivity. Qed.

Example deployment_enter_deleted :
  outcome (Deployment.__enter__ (Return nginx_v1deployment)
             [deployment_event "DELETED" nginx_meta None])
    nginx_deployment
  = (Return PySelf,
     [LogPretty; Api (create_namespaced_deployment "default");
      Api (watch_list_namespaced_deployment "default" 60); WatchStop]).
Proof. reflexivity. Qed.

(** *** Deletion *)

(** The loop of [Pod.delete] returns [True] with the model reset and the
    watch stopped, or [False] with the object as it was. *)
Lemma pod_delete_watch_returns (s : Pod.t) md events :
  metadata_of s = Some md ->
  exists v s' t,
    Pod.delete_watch events s = (Return v, s', t) /\
    (v = PyTrue /\ model s' = Some Obj.empty /\
     t = [WatchStop; LogInfo ("Deleted pod " ++ full_name md)%string] \/
     v = PyFalse /\ s' = s /\
     t = [LogWarning ("Unable to delete pod " ++ full_name md)%string]).
Proof.
  intros H. destruct (entity_state _ H) as (mf & sp & st & ->). clear H.
  induction events as [|e rest IH].
  - do 3 eexists. split; [reflexivity|]. right. repeat split.
  - cbn [Pod.delete_watch]. run. cbn -[String.append].
    destruct (is_deleted e); cbn -[String.append];
      [destruct (opt_eqb String.eqb (uid (Event.metadata e)) (uid md));
       cbn -[String.append] | ].
    + do 3 eexists. split; [reflexivity|]. left. repeat split.
    + destruct IH as (v & s' & t & -> & IH).
      do 3 eexists. split; [reflexivity|]. exact IH.
    + destruct IH as (v & s' & t & -> & IH).
      do 3 eexists. split; [reflexivity|]. exact IH.
Qed.

(** The loop of [Deployment.delete] never touches the object. *)
Lemma deployment_delete_watch_returns (s : Deployment.t) md events :
  metadata_of s = Some md ->
  exists v t,
    Deployment.delete_watch events s = (Return v, s, t) /\
    (v = PyTrue /\ t = [WatchStop] \/
     v = PyFalse /\
     t = [Printed ("unable to delete deployment " ++ full_name md)%string]).
Proof.
  intros H. destruct (entity_state _ H) as (mf & sp & st & ->). clear H.
  induction events as [|e rest IH].
  - do 2 eexists. split; [reflexivity|]. right. repeat split.
  - cbn [Deployment.delete_watch]. run. cbn -[String.append].
    destruct (is_deleted e); cbn -[String.append];
      [destruct (opt_eqb String.eqb (uid (Event.metadata e)) (uid md));
       cbn -[String.append] | ].
    + do 2 eexists. split; [reflexivity|]. left. repeat split.
    + destruct IH as (v & t & -> & IH).
      do 2 eexists. split; [reflexivity|]. exact IH.
    + destruct IH as (v & t & -> & IH).
      do 2 eexists. split; [reflexivity|]. exact IH.
Qed.

(** [Pod.delete]: a confirmed deletion leaves the empty default model;
    an unconfirmed one leaves the object as it was. *)
Lemma pod_delete_waiting (s : Pod.t) md timeout events :
  metadata_of s = Some md ->
  exists v,
    fst (outcome (Pod.delete true timeout (Return tt) events) s) = Return v /\
    (v = PyTrue /\
     model (state_after (Pod.delete true timeout (Return tt) events) s)
     = Some Obj.empty \/
     v = PyFalse /\
     state_after (Pod.delete true timeout (Return tt) events) s = s).
Proof.
  intros H. destruct (@pod_delete_watch_returns s md events H)
    as (v & s' & t & Hw & Hv).
  destruct (entity_state _ H) as (mf & sp & st & ->).
  methods. run. cbn -[String.append Pod.delete_watch].
  rewrite Hw. cbn -[String.append].
  exists v. split; [reflexivity|].
  destruct Hv as [(-> & Hm & _) | (-> & Hs & _)]; [left | right]; auto.
Qed.

(** [Pod.delete] without waiting resets the model, and then raises: the
    log line after the reset formats [self.namespaced_name], which reads
    the metadata of the model just emptied. *)
Lemma pod_delete_without_waiting (s : Pod.t) md timeout events :
  metadata_of s = Some md ->
  model (state_after (Pod.delete false timeout (Return tt) events) s)
  = Some Obj.empty /\
  fst (outcome (Pod.delete false timeout (Return tt) events) s)
  = Raise AttributeError.
Proof.
  intros H. destruct (entity_state _ H) as (mf & sp & st & ->).
  split; reflexivity.
Qed.

Lemma deployment_delete_without_waiting
    (s : Deployment.t) md timeout events :
  metadata_of s = Some md ->
  model (state_after (Deployment.delete false timeout (Return tt) events) s)
  = Some Obj.empty /\
  fst (outcome (Deployment.delete false timeout (Return tt) events) s)
  = Return PyTrue.
Proof.
  intros H. destruct (entity_state _ H) as (mf & sp & st & ->).
  split; reflexivity.
Qed.

(** [Deployment.delete] with waiting returns without ever assigning
    [self.model], confirmed or not. *)
Lemma deployment_delete_waiting (s : Deployment.t) md timeout events :
  metadata_of s = Some md ->
  state_after (Deployment.delete true timeout (Return tt) events) s = s /\
  exists v,
    fst (outcome (Deployment.delete true timeout (Return tt) events) s)
    = Return v /\ (v = PyTrue \/ v = PyFalse).
Proof.
  intros H. destruct (@deployment_delete_watch_returns s md events H)
    as (v & t & Hw & Hv).
  destruct (entity_state _ H) as (mf & sp & st & ->).
  methods. run. cbn -[String.append Deployment.delete_watch].
  rewrite Hw. cbn -[String.append].
  split; [reflexivity|]. exists v. split; [reflexivity|].
  destruct Hv as [[-> _]|[-> _]]; auto.
Qed.

Lemma pod_manager_delete_resets (s : PodManager.t) n ns :
  PodManager.delete n ns (Return tt) s
  = (Return PyTrue, AsModel Obj.empty, [Api (delete_namespaced_pod n ns)]).
Proof. reflexivity. Qed.

Lemma deployment_manager_delete_keeps (s : DeploymentManager.t) md :
  held_metadata_of s = Some md ->
  DeploymentManager.delete (Return tt) s
  = (Return tt, s,
     [Api (delete_namespaced_deployment (name md) (namespace md))]).
Proof.
  intros H. destruct (held_state _ H) as (sp & st & ->). reflexivity.
Qed.

(** C9, at the failing input.  [Deployment.delete], waiting, reads the
    DELETED event that carries the uid of the deployment, stops the watch
    and returns [True], and [self.model] is still the model of the
    deleted deployment: the branch at lines 271 to 273 has no
    [self.model = client.V1Deployment()].  [Pod.delete] on the
    corresponding stream leaves [client.V1Pod()]. *)
Theorem deployment_delete_keeps_model_after_confirmation :
  outcome (Deployment.delete true 30 (Return tt)
             [deployment_event "DELETED" nginx_meta None])
    nginx_deployment
  = (Return PyTrue,
     [Api (delete_namespaced_deployment "nginx-deployment" "default");
      Api (watch_list_namespaced_deployment "default" 30);
      WatchStop]) /\
  model (state_after
           (Deployment.delete true 30 (Return tt)
              [deployment_event "DELETED" nginx_meta None])
           nginx_deployment)
  = Some nginx_v1deployment /\
  Some nginx_v1deployment <> Some Obj.empty /\
  model (state_after
           (Pod.delete true 60 (Return tt)
              [pod_event "DELETED" sample_meta "Running"])
           sample_pod)
  = Some Obj.empty.
Proof.
  split; [reflexivity|]. split; [reflexivity|].
  split; [discriminate | reflexivity].
Qed.

(** *** Leaving a scope on an error *)

(** [Pod.__exit__] returns [None] once the delete call has returned; an
    unconfirmed deletion is logged and printed. *)
Lemma pod_exit_returns_none (s : Pod.t) md events exc :
  metadata_of s = Some md ->
  exists confirmed : bool,
    outcome (Pod.__exit__ (Return tt) events exc) s
    = (Return PyNone,
       [LogInfo ("Deleting pod " ++ full_name md)%string;
        Api (delete_namespaced_pod (name md) (namespace md));
        Api (watch_list_namespaced_pod (namespace md) 60)]
       ++ (if confirmed
           then [WatchStop;
                 LogInfo ("Deleted pod " ++ full_name md)%string]
           else [LogWarning
                   ("Unable to delete pod " ++ full_name md)%string;
                 Printed "unable to delete pod"])).
Proof.
  intros H. destruct (@pod_delete_watch_returns s md events H)
    as (v & s' & t & Hw & Hv).
  destruct (entity_state _ H) as (mf & sp & st & ->).
  methods. run. cbn -[String.append Pod.delete_watch].
  rewrite Hw. cbn -[String.append].
  destruct Hv as [(-> & _ & ->) | (-> & _ & ->)];
    [exists true | exists false]; reflexivity.
Qed.

Lemma deployment_exit_returns_none (s : Deployment.t) md events exc :
  metadata_of s = Some md ->
  exists confirmed : bool,
    outcome (Deployment.__exit__ (Return tt) events exc) s
    = (Return PyNone,
       [Api (delete_namespaced_deployment (name md) (namespace md));
        Api (watch_list_namespaced_deployment (namespace md) 30)]
       ++ (if confirmed
           then [WatchStop]
           else [Printed ("unable to delete deployment "
                        ++ full_name md)%string;
                 Printed "unable to delete deployment"])).
Proof.
  intros H. destruct (@deployment_delete_watch_returns s md events H)
    as (v & t & Hw & Hv).
  destruct (entity_state _ H) as (mf & sp & st & ->).
  methods. run. cbn -[String.append Deployment.delete_watch].
  rewrite Hw. cbn -[String.append].
  destruct Hv as [(-> & ->) | (-> & ->)];
    [exists true | exists false]; reflexivity.
Qed.

(** [PodManager.__exit__] returns what [delete] returns: [True]. *)
Lemma pod_manager_exit_returns_true (s : PodManager.t) md exc :
  held_metadata_of s = Some md ->
  PodManager.__exit__ (Return tt) exc s
  = (Return PyTrue, AsModel Obj.empty,
     [Api (delete_namespaced_pod (name md) (namespace md))]).
Proof.
  intros H. destruct (held_state _ H) as (sp & st & ->). reflexivity.
Qed.

(** The [with] statement when its body raises and [__exit__] returns. *)
Lemma with_statement_body_error {S B} (enter : M S pyval)
    (exit : option exn -> M S pyval) (body : pyval -> M S B)
    s h s1 t1 e s2 t2 v s3 t3 :
  enter s = (Return h, s1, t1) ->
  body h s1 = (Raise e, s2, t2) ->
  exit (Some e) s2 = (Return v, s3, t3) ->
  with_statement enter exit body s
  = (if is_true v then Return None else Raise e, s3, t1 ++ t2 ++ t3).
Proof.
  intros He Hb Hx. unfold with_statement. rewrite He, Hb, Hx.
  now destruct (is_true v).
Qed.

(** A [with] block over a [Pod] or a [Deployment] lets the error of its
    body through, whether or not the deletion was confirmed. *)
Lemma entity_scopes_propagate {B} e :
  (forall (enter : M Pod.t pyval) (body : pyval -> M Pod.t B)
          s h s1 t1 s2 t2 md events,
     enter s = (Return h, s1, t1) ->
     body h s1 = (Raise e, s2, t2) ->
     metadata_of s2 = Some md ->
     fst (outcome
            (with_statement enter (Pod.__exit__ (Return tt) events) body) s)
     = Raise e) /\
  (forall (enter : M Deployment.t pyval) (body : pyval -> M Deployment.t B)
          s h s1 t1 s2 t2 md events,
     enter s = (Return h, s1, t1) ->
     body h s1 = (Raise e, s2, t2) ->
     metadata_of s2 = Some md ->
     fst (outcome
            (with_statement enter (Deployment.__exit__ (Return tt) events)
               body) s)
     = Raise e).
Proof.
  split; intros enter body s h s1 t1 s2 t2 md events He Hb Hmd.
  - destruct (@pod_exit_returns_none s2 md events (Some e) Hmd)
      as [c Hx].
    unfold outcome in *.
    destruct (Pod.__exit__ (Return tt) events (Some e) s2)
      as [[r s3] t3] eqn:Hexit.
    simpl in Hx. assert (Hr : r = Return PyNone) by congruence.
    subst r. clear Hx.
    erewrite with_statement_body_error by eassumption. reflexivity.
  - destruct (@deployment_exit_returns_none s2 md events (Some e) Hmd)
      as [c Hx].
    unfold outcome in *.
    destruct (Deployment.__exit__ (Return tt) events (Some e) s2)
      as [[r s3] t3] eqn:Hexit.
    simpl in Hx. assert (Hr : r = Return PyNone) by congruence.
    subst r. clear Hx.
    erewrite with_statement_body_error by eassumption. reflexivity.
Qed.

(** A [with] block over a [PodManager] ends normally whatever its body
    raised. *)
Lemma manager_scope_ends_normally {B} e
    (enter : M PodManager.t pyval) (body : pyval -> M PodManager.t B)
    s h s1 t1 s2 t2 md :
  enter s = (Return h, s1, t1) ->
  body h s1 = (Raise e, s2, t2) ->
  held_metadata_of s2 = Some md ->
  fst (outcome
         (with_statement enter (PodManager.__exit__ (Return tt)) body) s)
  = Return None.
Proof.
  intros He Hb Hmd. unfold outcome.
  erewrite with_statement_body_error;
    [ | exact He | exact Hb
      | eapply pod_manager_exit_returns_true; exact Hmd ].
  reflexivity.
Qed.

(** C3, at the failing input.  A [with PodManager(...)] block whose body
    raises ends normally: [PodManager.__exit__] returns the [True] of
    [delete], and a true value returned by [__exit__] suppresses the
    error of the body.  The same body under [with Pod(...)], whose
    [__exit__] returns [None], lets the error through, here after an
    unconfirmed deletion that is logged and printed. *)
Theorem pod_manager_scope_swallows_body_error :
  outcome
    (with_statement
       (PodManager.__enter__ (Return sample_v1pod)
          [pod_event "MODIFIED" sample_meta "Running"])
       (PodManager.__exit__ (Return tt))
       (fun _ => raise (UserError "boom") : M PodManager.t unit))
    (AsDict pod_manifest)
  = (Return None,
     [Printed "__enter__"; Printed "create";
      Api (create_namespaced_pod "default"); Printed "ready";
      Api (watch_list_namespaced_pod "default" 60);
      Printed "sample-pod"; WatchStop;
      Api (delete_namespaced_pod "sample-pod" "default")]) /\
  outcome
    (with_statement
       (Pod.__enter__ (Return sample_v1pod)
          [pod_event "MODIFIED" sample_meta "Running"])
       (Pod.__exit__ (Return tt) [])
       (fun _ => raise (UserError "boom") : M Pod.t unit))
    sample_pod
  = (Raise (UserError "boom"),
     [LogInfo "Creating pod default/sample-pod"; LogPretty;
      Api (create_namespaced_pod "default");
      Api (watch_list_namespaced_pod "default" 60);
      WatchStop; LogInfo "Pod created default/sample-pod";
      LogInfo "Deleting pod default/sample-pod";
      Api (delete_namespaced_pod "sample-pod" "default");
      Api (watch_list_namespaced_pod "default" 60);
      LogWarning "Unable to delete pod default/sample-pod";
      Printed "unable to delete pod"]).
Proof. split; reflexivity. Qed.

End Lifecycle.

(** ** More on the merge *)

Module MergeAlgebra.
Import DictFacts MergeFacts JsonMerge.

Lemma dict_get_in k v items :
  dict_get k items = Some v -> In (k, v) items.
Proof.
  induction items as [|[k' v'] tl IH]; simpl; intros H.
  - discriminate.
  - destruct (String.eqb k k') eqn:E.
    + apply String.eqb_eq in E. inversion H. subst. now left.
    + right. now apply IH.
Qed.

Lemma untouched_lookup path : forall h,
  untouched path h = true -> lookup path h = None.
Proof.
  induction path as [|k rest IH]; intros h H.
  - discriminate.
  - destruct h as [ |b|z|s|l|items]; try discriminate.
    simpl in *. destruct (dict_get k items) as [v|]; auto.
Qed.

(** What the merged dict binds a key of the override to. *)
Lemma merge_dict_bound hitems bitems k hv :
  well_formed (JDict hitems) = true ->
  dict_get k hitems = Some hv ->
  dict_get k (merge_items (fun bv v => merge bv v) hitems bitems)
  = Some (match dict_get k bitems with
          | Some bv => merge bv hv
          | None => hv
          end).
Proof.
  intros Hwf Hk. destruct (well_formed_dict _ Hwf) as [Hu _].
  apply merge_items_bound; [exact Hu | now apply dict_get_in].
Qed.

Lemma dict_get_mem k items :
  dict_get k items = None -> mem k (keys items) = false.
Proof.
  induction items as [|[k' v'] tl IH]; simpl; intros H; auto.
  destruct (String.eqb k k'); [discriminate | now apply IH].
Qed.

(** The merge leaves alone what the override does not mention: at a
    path the override does not reach, the merged manifest has what the
    base has (a value or nothing). *)
Theorem merge_keeps_untouched_paths path : forall head base,
  well_formed head = true ->
  untouched path head = true ->
  lookup path (merge base head) = lookup path base.
Proof.
  induction path as [|k rest IH]; intros head base Hwf Hun.
  - discriminate.
  - destruct head as [ |b|z|s|l|hitems]; try discriminate.
    assert (Hnone : lookup (k :: rest) (JDict hitems) = None)
      by now apply untouched_lookup.
    destruct base as [ |b|z|s|l|bitems]; try exact Hnone.
    cbn [merge lookup]. cbn [untouched] in Hun.
    destruct (dict_get k hitems) as [hv|] eqn:Hk.
    + rewrite merge_dict_bound with (hv := hv) by assumption.
      destruct (well_formed_dict _ Hwf) as [_ Hv].
      destruct (dict_get k bitems) as [bv|].
      * apply IH; [|exact Hun]. eapply Hv. apply dict_get_in. exact Hk.
      * now apply untouched_lookup.
    + rewrite merge_items_other by now apply dict_get_mem.
      reflexivity.
Qed.

Lemma merge_keeps_untouched_paths_witness :
  (well_formed namespace_override = true /\
   untouched ["metadata"; "name"] namespace_override = true) /\
  lookup ["metadata"; "name"]
    (merge pod_manifest namespace_override)
  = Some (JStr "sample-pod2").
Proof.
  split; [split; reflexivity|].
  rewrite (@merge_keeps_untouched_paths ["metadata"; "name"]
             namespace_override pod_manifest eq_refl eq_refl).
  reflexivity.
Defined.

(** The override wins at a leaf: a value of the override that is no
    mapping is the value of the merged manifest at the same path,
    whatever the base has there. *)
Theorem merge_override_wins_at_leaf path : forall head base v,
  well_formed head = true ->
  lookup path head = Some v ->
  is_leaf v = true ->
  lookup path (merge base head) = Some v.
Proof.
  induction path as [|k rest IH]; intros head base v Hwf Hl Hleaf.
  - simpl in Hl. inversion Hl; subst v.
    destruct head; try discriminate; reflexivity.
  - destruct head as [ |b|z|s|l|hitems]; try discriminate.
    destruct base as [ |b|z|s|l|bitems]; try exact Hl.
    cbn [merge lookup]. cbn [lookup] in Hl.
    destruct (dict_get k hitems) as [hv|] eqn:Hk; [|discriminate].
    rewrite merge_dict_bound with (hv := hv) by assumption.
    destruct (well_formed_dict _ Hwf) as [_ Hv].
    destruct (dict_get k bitems) as [bv|]; [|exact Hl].
    apply IH; auto. eapply Hv. apply dict_get_in. exact Hk.
Qed.

Lemma merge_override_wins_at_leaf_witness :
  (well_formed namespace_override = true /\
   lookup ["metadata"; "labels"; "tier"] namespace_override
   = Some (JStr "web") /\
   is_leaf (JStr "web") = true) /\
  lookup ["metadata"; "labels"; "tier"]
    (merge pod_manifest namespace_override)
  = Some (JStr "web").
Proof.
  split; [repeat split; reflexivity|].
  apply (@merge_override_wins_at_leaf ["metadata"; "labels"; "tier"]
           namespace_override pod_manifest (JStr "web"));
    reflexivity.
Defined.

Lemma well_formed_dict_intro items :
  unique (keys items) = true ->
  (forall k v, In (k, v) items -> well_formed v = true) ->
  well_formed (JDict items) = true.
Proof.
  intros Hu Hv. simpl. rewrite Hu. simpl.
  clear Hu. induction items as [|[k v] tl IH]; simpl; auto.
  rewrite (Hv k v) by now left. simpl.
  apply IH. intros k' v' Hin. apply (Hv k' v'). now right.
Qed.

Lemma mem_keys_dict_set k' k v items :
  mem k' (keys (dict_set k v items))
  = mem k' (keys items) || String.eqb k' k.
Proof.
  induction items as [|[k0 v0] tl IH]; simpl.
  - now rewrite orb_false_r.
  - destruct (String.eqb k k0) eqn:E; simpl.
    + apply String.eqb_eq in E. subst k0.
      destruct (String.eqb k' k); simpl; auto. now rewrite orb_false_r.
    + rewrite IH. now rewrite orb_assoc.
Qed.

Lemma unique_dict_set k v items :
  unique (keys items) = true -> unique (keys (dict_set k v items)) = true.
Proof.
  induction items as [|[k0 v0] tl IH]; simpl; intros H; auto.
  apply andb_true_iff in H. destruct H as [Hfresh Hu].
  destruct (String.eqb k k0) eqn:E; simpl.
  - now rewrite Hfresh, Hu.
  - rewrite mem_keys_dict_set, (IH Hu).
    apply negb_true_iff in Hfresh. rewrite Hfresh. simpl.
    rewrite String.eqb_sym, E. reflexivity.
Qed.

Lemma in_dict_set k' v' k v items :
  In (k', v') (dict_set k v items) ->
  (k' = k /\ v' = v) \/ In (k', v') items.
Proof.
  induction items as [|[k0 v0] tl IH]; simpl; intros H.
  - destruct H as [H|[]]. inversion H. now left.
  - destruct (String.eqb k k0) eqn:E.
    + apply String.eqb_eq in E. subst k0.
      destruct H as [H|H]; [inversion H; now left | right; now right].
    + destruct H as [H|H]; [right; now left |].
      destruct (IH H) as [Heq|Hin]; [now left | right; now right].
Qed.

Lemma merge_items_well_formed (f : json -> json -> json) hitems :
  (forall k v, In (k, v) hitems ->
     well_formed v = true /\
     forall b, well_formed b = true -> well_formed (f b v) = true) ->
  forall acc,
    well_formed (JDict acc) = true ->
    well_formed (JDict (merge_items f hitems acc)) = true.
Proof.
  induction hitems as [|[k v] tl IH]; simpl; intros Hh acc Hacc; auto.
  apply IH.
  - intros k' v' Hin. apply (Hh k' v'). now right.
  - destruct (well_formed_dict _ Hacc) as [Hu Hv].
    destruct (Hh k v (or_introl eq_refl)) as [Hwv Hf].
    apply well_formed_dict_intro.
    + now apply unique_dict_set.
    + intros k' v' Hin. apply in_dict_set in Hin.
      destruct Hin as [[-> ->]|Hin]; [|eauto].
      destruct (dict_get k acc) as [bv|] eqn:Hk; auto.
      apply Hf. eapply Hv. apply dict_get_in. exact Hk.
Qed.

(** The merge keeps the invariant of Python documents: merging two
    documents in which no dict binds a key twice gives such a document. *)
Theorem merge_well_formed head : forall base,
  well_formed base = true -> well_formed head = true ->
  well_formed (merge base head) = true.
Proof.
  induction head as [ |b|z|s|l _|hitems IH] using json_induction;
    intros base Hb Hh; try exact Hh.
  destruct base as [ |b|z|s|l|bitems]; try exact Hh.
  cbn [merge]. apply merge_items_well_formed; [|exact Hb].
  destruct (well_formed_dict _ Hh) as [_ Hv].
  rewrite Forall_forall in IH.
  intros k v Hin. split; [eauto|].
  intros b Hwb. apply (IH (k, v) Hin); eauto.
Qed.

Lemma merge_well_formed_witness :
  (well_formed pod_manifest = true /\
   well_formed namespace_override = true) /\
  well_formed (merge pod_manifest namespace_override) = true.
Proof.
  split; [split; reflexivity|].
  apply (@merge_well_formed namespace_override pod_manifest); reflexivity.
Defined.

(** Merged into the empty dict, a dict comes out as it is. *)
Lemma merge_items_from_empty (f : json -> json -> json) hitems :
  unique (keys hitems) = true ->
  forall acc,
    (forall k, mem k (keys hitems) = true -> dict_get k acc = None) ->
    merge_items f hitems acc = acc ++ hitems.
Proof.
  induction hitems as [|[k v] tl IH]; simpl; intros Hu acc Hacc.
  - now rewrite app_nil_r.
  - apply andb_true_iff in Hu. destruct Hu as [Hfresh Hu].
    apply negb_true_iff in Hfresh.
    rewrite (Hacc k) by now rewrite String.eqb_refl.
    assert (Hset : dict_set k v acc = acc ++ [(k, v)]).
    { assert (Hk : dict_get k acc = None)
        by (apply Hacc; now rewrite String.eqb_refl).
      clear -Hk. induction acc as [|[k0 v0] acc IHa]; simpl in *; auto.
      destruct (String.eqb k k0); [discriminate|].
      now rewrite IHa. }
    rewrite Hset, (IH Hu).
    + now rewrite <- app_assoc.
    + intros k' Hk'. rewrite <- Hset.
      rewrite dict_get_set_other.
      * apply Hacc. rewrite Hk'. apply orb_true_r.
      * destruct (String.eqb k' k) eqn:E; auto.
        apply String.eqb_eq in E. subst k'. congruence.
Qed.

Lemma merge_empty_base hitems :
  unique (keys hitems) = true ->
  merge (JDict []) (JDict hitems) = JDict hitems.
Proof.
  intros Hu. cbn [merge]. f_equal.
  now rewrite merge_items_from_empty.
Qed.

End MergeAlgebra.

(** ** More on construction *)

Module Construction.
Import ManifestFacts MergeAlgebra.

Lemma entity_construct {Sp St} message default_manifest
    (deserialize : json -> result (Obj.t Sp St)) body partial_manifest :
  construct (entity__init__ message default_manifest deserialize
               body partial_manifest)
  = (if metadata_is_mapping
          (merged_manifest default_manifest body partial_manifest)
     then
       if missing_or_empty "name"
            (merged_manifest default_manifest body partial_manifest)
          || missing_or_empty "namespace"
               (merged_manifest default_manifest body partial_manifest)
       then Raise (PyException message)
       else
         match deserialize
                 (merged_manifest default_manifest body partial_manifest)
         with
         | Return o =>
             Return
               {| manifest :=
                    merged_manifest default_manifest body partial_manifest;
                  model := Some o |}
         | Raise e => Raise e
         end
     else Raise AttributeError, []).
Proof.
  unfold construct. rewrite entity_init_checks.
  unfold bind at 1. rewrite identity_check.
  destruct (metadata_is_mapping _); [|reflexivity].
  destruct (_ || _); [reflexivity|].
  unfold set_model, bind, get, put, lift. simpl.
  now destruct (deserialize _).
Qed.

(** Building a [Pod] or a [Deployment] never reaches the cluster and
    prints or logs nothing, whatever the body, the partial manifest, the
    class default and the deserializer: the trace of the construction is
    empty, whether it returns an object or raises. *)
Theorem construction_sends_nothing :
  forall default_manifest body partial_manifest,
    (forall deserialize,
       snd (construct (Pod.__init__ default_manifest deserialize
                         body partial_manifest)) = []) /\
    (forall deserialize,
       snd (construct (Deployment.__init__ default_manifest deserialize
                         body partial_manifest)) = []).
Proof.
  intros. split; intros deserialize;
    unfold Pod.__init__, Deployment.__init__;
    now rewrite entity_construct.
Qed.

(** X1.  With [metadata.name] and [metadata.namespace] both given and
    truthy, the constructor hands the merged manifest to the client's
    deserializer and follows it: the object holds that manifest and the
    deserialized model, or the deserializer's error comes out. *)
Theorem construction_follows_deserialize :
  forall default_manifest body partial_manifest,
    metadata_is_mapping
      (merged_manifest default_manifest body partial_manifest) = true ->
    missing_or_empty "name"
      (merged_manifest default_manifest body partial_manifest) = false ->
    missing_or_empty "namespace"
      (merged_manifest default_manifest body partial_manifest) = false ->
    (forall deserialize,
       construct (Pod.__init__ default_manifest deserialize
                    body partial_manifest)
       = (match deserialize
                  (merged_manifest default_manifest body partial_manifest)
          with
          | Return o =>
              Return
                {| manifest :=
                     merged_manifest default_manifest body partial_manifest;
                   model := Some o |}
          | Raise e => Raise e
          end, [])) /\
    (forall deserialize,
       construct (Deployment.__init__ default_manifest deserialize
                    body partial_manifest)
       = (match deserialize
                  (merged_manifest default_manifest body partial_manifest)
          with
          | Return o =>
              Return
                {| manifest :=
                     merged_manifest default_manifest body partial_manifest;
                   model := Some o |}
          | Raise e => Raise e
          end, [])).
Proof.
  intros default_manifest body partial_manifest Hmap Hname Hns.
  split; intros deserialize;
    unfold Pod.__init__, Deployment.__init__;
    now rewrite entity_construct, Hmap, Hname, Hns.
Qed.

(** A deserializer that rejects the manifest: its error is the
    constructor's. *)
Lemma construction_follows_deserialize_witness :
  (metadata_is_mapping
     (merged_manifest (JDict []) pod_manifest namespace_override) = true /\
   missing_or_empty "name"
     (merged_manifest (JDict []) pod_manifest namespace_override) = false /\
   missing_or_empty "namespace"
     (merged_manifest (JDict []) pod_manifest namespace_override)
   = false) /\
  construct (Pod.__init__ (JDict [])
               (fun _ => Raise (UserError "ValueError"))
               pod_manifest namespace_override)
  = (Raise (UserError "ValueError"), []).
Proof.
  split; [repeat split; reflexivity|].
  exact (proj1 (construction_follows_deserialize
                  (JDict []) pod_manifest namespace_override
                  eq_refl eq_refl eq_refl)
           (fun _ => Raise (UserError "ValueError"))).
Defined.

Lemma merged_manifest_partial_alone items :
  unique (keys items) = true ->
  merged_manifest (JDict []) JNull (JDict items)
  = merged_manifest (JDict []) (JDict items) JNull.
Proof.
  intros Hu. unfold merged_manifest.
  destruct items as [|kv tl]; [reflexivity|].
  cbn [truthy]. now apply merge_empty_base.
Qed.

(** X2.  With the class default [_default_manifest = {}] of the source, a
    manifest given as [partial_manifest] alone builds what the same
    manifest given as [body] builds: the same object or the same
    error. *)
Theorem partial_manifest_alone_is_a_body :
  forall items,
    unique (keys items) = true ->
    (forall deserialize,
       construct (Pod.__init__ (JDict []) deserialize JNull (JDict items))
       = construct (Pod.__init__ (JDict []) deserialize (JDict items) JNull))
    /\
    (forall deserialize,
       construct (Deployment.__init__ (JDict []) deserialize
                    JNull (JDict items))
       = construct (Deployment.__init__ (JDict []) deserialize
                      (JDict items) JNull)).
Proof.
  intros items Hu.
  split; intros deserialize;
    unfold Pod.__init__, Deployment.__init__;
    now rewrite !entity_construct, (@merged_manifest_partial_alone items Hu).
Qed.

Lemma partial_manifest_alone_is_a_body_witness :
  unique (keys [("metadata",
                 JDict [("name", JStr "sample-pod");
                        ("namespace", JStr "default")])]) = true /\
  construct (Pod.__init__ (JDict []) (fun _ => Return sample_v1pod) JNull
               (JDict [("metadata",
                        JDict [("name", JStr "sample-pod");
                               ("namespace", JStr "default")])]))
  = (Return
       {| manifest :=
            JDict [("metadata",
                    JDict [("name", JStr "sample-pod");
                           ("namespace", JStr "default")])];
          model := Some sample_v1pod |}, []).
Proof.
  split; [reflexivity|].
  rewrite (proj1 (@partial_manifest_alone_is_a_body
                    [("metadata",
                      JDict [("name", JStr "sample-pod");
                             ("namespace", JStr "default")])]
                    eq_refl)
             (fun _ => Return sample_v1pod)).
  reflexivity.
Defined.

End Construction.

(** ** More on create and delete *)

Module CreateDelete.
Import LoopFacts Lifecycle.

(** X3.  [create] with waiting: the create call comes first, then the
    watch request, on the namespace of the object the call returned and
    with the caller's timeout; from there on the call is the readiness
    loop run on the object holding the returned model, so the loop waits
    for the name the server gave.  Nothing the watch reads is stored:
    [self.model] ends as the object the create call returned. *)
Theorem create_then_watch :
  (forall (s : Pod.t) md (m : V1Pod) md' timeout events,
     metadata_of s = Some md -> Obj.metadata m = Some md' ->
     outcome (Pod.create true timeout (Return m) events) s
     = (fst (pod_create_run (holding s m) events),
        [LogInfo ("Creating pod " ++ full_name md)%string; LogPretty;
         Api (create_namespaced_pod (namespace md));
         Api (watch_list_namespaced_pod (namespace md') timeout)]
        ++ snd (pod_create_run (holding s m) events)) /\
     state_after (Pod.create true timeout (Return m) events) s
     = holding s m) /\
  (forall (s : Deployment.t) md (m : V1Deployment) md' sp timeout events,
     metadata_of s = Some md ->
     Obj.metadata m = Some md' -> Obj.spec m = Some sp ->
     outcome (Deployment.create true timeout (Return m) events) s
     = (fst (deployment_create_run (holding s m) events),
        [LogPretty;
         Api (create_namespaced_deployment (namespace md));
         Api (watch_list_namespaced_deployment (namespace md') timeout)]
        ++ snd (deployment_create_run (holding s m) events)) /\
     state_after (Deployment.create true timeout (Return m) events) s
     = holding s m).
Proof.
  split.
  - intros s md m md' timeout events Hs Hm.
    destruct (entity_state _ Hs) as (mf & sp & st & ->).
    destruct (model_metadata_of _ Hm) as (sp' & st' & ->).
    unfold pod_create_run, holding. methods. run.
    cbn -[String.append Pod.create_watch].
    rewrite pod_create_watch_await with (md := md') by reflexivity.
    split; reflexivity.
  - intros s md m md' sp timeout events Hs Hm Hsp.
    destruct (entity_state _ Hs) as (mf & sp0 & st & ->).
    destruct (model_metadata_of _ Hm) as (sp' & st' & ->).
    simpl in Hsp. subst sp'.
    unfold deployment_create_run, holding. methods. run.
    cbn -[String.append Deployment.create_watch].
    rewrite deployment_create_watch_await with (md := md') (sp := sp)
      by reflexivity.
    split; reflexivity.
Qed.

(** The watch reads the pod Running; the model still says Pending, as the
    create call returned it. *)
Lemma create_then_watch_witness :
  (metadata_of sample_pod = Some sample_meta /\
   Obj.metadata sample_v1pod = Some sample_meta) /\
  model (state_after
           (Pod.create true 60 (Return sample_v1pod)
              [pod_event "MODIFIED" sample_meta "Running"]) sample_pod)
  = Some sample_v1pod.
Proof.
  split; [split; reflexivity|].
  rewrite (proj2 (proj1 create_then_watch
                    sample_pod sample_meta sample_v1pod sample_meta 60%Z
                    [pod_event "MODIFIED" sample_meta "Running"]
                    eq_refl eq_refl)).
  reflexivity.
Defined.

(** X4.  A create call the client rejects: the error comes out of
    [create] as it is, the object is as it was, and no watch request
    follows, waiting or not. *)
Theorem rejected_create_changes_nothing :
  (forall (s : Pod.t) md e wait timeout events,
     metadata_of s = Some md ->
     Pod.create wait timeout (Raise e) events s
     = (Raise e, s,
        [LogInfo ("Creating pod " ++ full_name md)%string; LogPretty;
         Api (create_namespaced_pod (namespace md))])) /\
  (forall (s : Deployment.t) md e wait timeout events,
     metadata_of s = Some md ->
     Deployment.create wait timeout (Raise e) events s
     = (Raise e, s,
        [LogPretty; Api (create_namespaced_deployment (namespace md))])) /\
  (forall (s : PodManager.t) e ns,
     PodManager.create ns (Raise e) s
     = (Raise e, s, [Printed "create"; Api (create_namespaced_pod ns)])) /\
  (forall (s : DeploymentManager.t) e ns,
     DeploymentManager.create ns (Raise e) s
     = (Raise e, s,
        [Printed "create"; Api (create_namespaced_deployment ns)])).
Proof.
  split; [|split; [|split]].
  - intros s md e wait timeout events Hs.
    destruct (entity_state _ Hs) as (mf & sp & st & ->). reflexivity.
  - intros s md e wait timeout events Hs.
    destruct (entity_state _ Hs) as (mf & sp & st & ->). reflexivity.
  - reflexivity.
  - reflexivity.
Qed.

Lemma rejected_create_changes_nothing_witness :
  metadata_of sample_pod = Some sample_meta /\
  Pod.create true 60 (Raise (ApiException 409))
    [pod_event "MODIFIED" sample_meta "Running"] sample_pod
  = (Raise (ApiException 409), sample_pod,
     [LogInfo "Creating pod default/sample-pod"; LogPretty;
      Api (create_namespaced_pod "default")]).
Proof.
  split; [reflexivity|].
  exact (proj1 rejected_create_changes_nothing
           sample_pod sample_meta (ApiException 409) true 60%Z
           [pod_event "MODIFIED" sample_meta "Running"] eq_refl).
Defined.

(** The two [delete] loops return [True] exactly when the stream holds a
    DELETED event with the uid of the object. *)
Lemma pod_delete_watch_confirms (s : Pod.t) md events :
  metadata_of s = Some md ->
  fst (outcome (Pod.delete_watch events) s)
  = Return (if existsb (uid_deleted (uid md)) events
            then PyTrue else PyFalse).
Proof.
  intros H. destruct (entity_state _ H) as (mf & sp & st & ->). clear H.
  unfold outcome. cbn [fst].
  induction events as [|e rest IH].
  - reflexivity.
  - cbn [Pod.delete_watch existsb]. unfold uid_deleted at 1. run.
    cbn -[String.append existsb].
    destruct (is_deleted e); cbn -[String.append existsb];
      [destruct (opt_eqb String.eqb (uid (Event.metadata e)) (uid md));
       cbn -[String.append existsb] | ];
      try reflexivity;
      destruct (Pod.delete_watch rest _) as [[r s'] t];
      cbn in IH |- *; exact IH.
Qed.

Lemma deployment_delete_watch_confirms (s : Deployment.t) md events :
  metadata_of s = Some md ->
  fst (outcome (Deployment.delete_watch events) s)
  = Return (if existsb (uid_deleted (uid md)) events
            then PyTrue else PyFalse).
Proof.
  intros H. destruct (entity_state _ H) as (mf & sp & st & ->). clear H.
  unfold outcome. cbn [fst].
  induction events as [|e rest IH].
  - reflexivity.
  - cbn [Deployment.delete_watch existsb]. unfold uid_deleted at 1. run.
    cbn -[String.append existsb].
    destruct (is_deleted e); cbn -[String.append existsb];
      [destruct (opt_eqb String.eqb (uid (Event.metadata e)) (uid md));
       cbn -[String.append existsb] | ];
      try reflexivity;
      destruct (Deployment.delete_watch rest _) as [[r s'] t];
      cbn in IH |- *; exact IH.
Qed.

(** X5.  [delete] with waiting, once the delete call is accepted,
    returns [True] exactly when the stream holds a DELETED event that
    carries the uid of the object, and [False] otherwise: the name of the
    event's object plays no part. *)
Theorem delete_confirmed_by_uid :
  (forall (s : Pod.t) md timeout events,
     metadata_of s = Some md ->
     fst (outcome (Pod.delete true timeout (Return tt) events) s)
     = Return (if existsb (uid_deleted (uid md)) events
               then PyTrue else PyFalse)) /\
  (forall (s : Deployment.t) md timeout events,
     metadata_of s = Some md ->
     fst (outcome (Deployment.delete true timeout (Return tt) events) s)
     = Return (if existsb (uid_deleted (uid md)) events
               then PyTrue else PyFalse)).
Proof.
  split; intros s md timeout events Hs.
  - pose proof (@pod_delete_watch_confirms s md events Hs) as Hw.
    destruct (entity_state _ Hs) as (mf & sp & st & ->).
    unfold outcome in *. cbn [fst] in *. methods. run.
    cbn -[String.append Pod.delete_watch existsb].
    destruct (Pod.delete_watch events _) as [[r s'] t].
    cbn in Hw |- *. exact Hw.
  - pose proof (@deployment_delete_watch_confirms s md events Hs) as Hw.
    destruct (entity_state _ Hs) as (mf & sp & st & ->).
    unfold outcome in *. cbn [fst] in *. methods. run.
    cbn -[String.append Deployment.delete_watch existsb].
    destruct (Deployment.delete_watch events _) as [[r s'] t].
    cbn in Hw |- *. exact Hw.
Qed.

(** A pod of the same name, recreated under another uid, is deleted: the
    deletion of [sample-pod] is not confirmed by it. *)
Lemma delete_confirmed_by_uid_witness :
  metadata_of sample_pod = Some sample_meta /\
  fst (outcome
         (Pod.delete true 60 (Return tt)
            [{| Event.type := "DELETED";
                Event.metadata :=
                  {| name := "sample-pod"; namespace := "default";
                     uid := Some "0000" |};
                Event.status := {| phase := Some "Running" |} |}])
         sample_pod)
  = Return PyFalse.
Proof.
  split; [reflexivity|].
  exact (proj1 delete_confirmed_by_uid sample_pod sample_meta 60%Z
           [{| Event.type := "DELETED";
               Event.metadata :=
                 {| name := "sample-pod"; namespace := "default";
                    uid := Some "0000" |};
               Event.status := {| phase := Some "Running" |} |}]
           eq_refl).
Defined.

(** X6.  A delete call the client rejects (the object is gone already,
    say): the error comes out of [delete] as it is, [self.model] is not
    reset, and no watch request follows. *)
Theorem rejected_delete_changes_nothing :
  (forall (s : Pod.t) md e wait timeout events,
     metadata_of s = Some md ->
     Pod.delete wait timeout (Raise e) events s
     = (Raise e, s,
        [LogInfo ("Deleting pod " ++ full_name md)%string;
         Api (delete_namespaced_pod (name md) (namespace md))])) /\
  (forall (s : Deployment.t) md e wait timeout events,
     metadata_of s = Some md ->
     Deployment.delete wait timeout (Raise e) events s
     = (Raise e, s,
        [Api (delete_namespaced_deployment (name md) (namespace md))])) /\
  (forall (s : PodManager.t) e n ns,
     PodManager.delete n ns (Raise e) s
     = (Raise e, s, [Api (delete_namespaced_pod n ns)])) /\
  (forall (s : DeploymentManager.t) md e,
     held_metadata_of s = Some md ->
     DeploymentManager.delete (Raise e) s
     = (Raise e, s,
        [Api (delete_namespaced_deployment (name md) (namespace md))])).
Proof.
  split; [|split; [|split]].
  - intros s md e wait timeout events Hs.
    destruct (entity_state _ Hs) as (mf & sp & st & ->). reflexivity.
  - intros s md e wait timeout events Hs.
    destruct (entity_state _ Hs) as (mf & sp & st & ->).
    destruct wait; reflexivity.
  - reflexivity.
  - intros s md e Hs.
    destruct (held_state _ Hs) as (sp & st & ->). reflexivity.
Qed.

Lemma rejected_delete_changes_nothing_witness :
  metadata_of nginx_deployment = Some nginx_meta /\
  Deployment.delete true 30 (Raise (ApiException 404)) [] nginx_deployment
  = (Raise (ApiException 404), nginx_deployment,
     [Api (delete_namespaced_deployment "nginx-deployment" "default")]).
Proof.
  split; [reflexivity|].
  exact (proj1 (proj2 rejected_delete_changes_nothing)
           nginx_deployment nginx_meta (ApiException 404) true 30%Z []
           eq_refl).
Defined.

(** X7.  [Pod.delete] without waiting never returns: once the delete
    call is accepted it resets [self.model] to the empty default and then
    raises [AttributeError], because the log line that follows formats
    [self.namespaced_name] from the model just emptied.
    [Deployment.delete] without waiting, which logs nothing, resets the
    model and returns [True]. *)
Theorem delete_without_waiting :
  (forall (s : Pod.t) md timeout events,
     metadata_of s = Some md ->
     Pod.delete false timeout (Return tt) events s
     = (Raise AttributeError, holding s Obj.empty,
        [LogInfo ("Deleting pod " ++ full_name md)%string;
         Api (delete_namespaced_pod (name md) (namespace md))])) /\
  (forall (s : Deployment.t) md timeout events,
     metadata_of s = Some md ->
     Deployment.delete false timeout (Return tt) events s
     = (Return PyTrue, holding s Obj.empty,
        [Api (delete_namespaced_deployment (name md) (namespace md))])).
Proof.
  split; intros s md timeout events Hs;
    destruct (entity_state _ Hs) as (mf & sp & st & ->); reflexivity.
Qed.

Lemma delete_without_waiting_witness :
  metadata_of sample_pod = Some sample_meta /\
  fst (outcome (Pod.delete false 60 (Return tt) []) sample_pod)
  = Raise AttributeError.
Proof.
  split; [reflexivity|].
  unfold outcome.
  rewrite (proj1 delete_without_waiting sample_pod sample_meta 60%Z []
             eq_refl).
  reflexivity.
Defined.

(** X8.  After a confirmed [Pod.delete] the object cannot be used
    again: [create] and [delete], in either mode, raise [AttributeError]
    before anything is logged or sent, and leave the object as it is. *)
Theorem pod_unusable_after_confirmed_delete :
  forall (s : Pod.t) md timeout events,
    metadata_of s = Some md ->
    fst (outcome (Pod.delete true timeout (Return tt) events) s)
    = Return PyTrue ->
    forall wait timeout' created deleted events',
      Pod.create wait timeout' created events'
        (state_after (Pod.delete true timeout (Return tt) events) s)
      = (Raise AttributeError,
         state_after (Pod.delete true timeout (Return tt) events) s, [])
      /\
      Pod.delete wait timeout' deleted events'
        (state_after (Pod.delete true timeout (Return tt) events) s)
      = (Raise AttributeError,
         state_after (Pod.delete true timeout (Return tt) events) s, []).
Proof.
  intros s md timeout events Hs Hret wait timeout' created deleted events'.
  destruct (@pod_delete_waiting s md timeout events Hs) as (v & Hv & Hcase).
  rewrite Hret in Hv. inversion Hv; subst v.
  destruct Hcase as [[_ Hm] | [F _]]; [|discriminate].
  destruct (state_after _ s) as [mf [o|]]; simpl in Hm; [|discriminate].
  inversion Hm; subst o. split; reflexivity.
Qed.

Lemma pod_unusable_after_confirmed_delete_witness :
  (metadata_of sample_pod = Some sample_meta /\
   fst (outcome
          (Pod.delete true 60 (Return tt)
             [pod_event "DELETED" sample_meta "Running"]) sample_pod)
   = Return PyTrue) /\
  fst (outcome
         (Pod.delete true 60 (Return tt) [])
         (state_after
            (Pod.delete true 60 (Return tt)
               [pod_event "DELETED" sample_meta "Running"]) sample_pod))
  = Raise AttributeError.
Proof.
  split; [split; reflexivity|].
  unfold outcome.
  rewrite (proj2 (@pod_unusable_after_confirmed_delete
                    sample_pod sample_meta 60%Z
                    [pod_event "DELETED" sample_meta "Running"]
                    eq_refl eq_refl true 60%Z (Return sample_v1pod)
                    (Return tt) [])).
  reflexivity.
Defined.

End CreateDelete.

(** ** More on the scopes *)

Module Scopes.
Import LoopFacts Lifecycle CreateDelete.

(** X11.  When the create call of [__enter__] is rejected, the [with]
    statement raises that error: the body does not run and [__exit__] is
    not called, so no delete call is sent. *)
Theorem failed_enter_skips_body_and_teardown :
  forall (B : Type) e,
    (forall (s : Pod.t) md events exit (body : pyval -> M Pod.t B),
       metadata_of s = Some md ->
       with_statement (Pod.__enter__ (Raise e) events) exit body s
       = (Raise e, s,
          [LogInfo ("Creating pod " ++ full_name md)%string; LogPretty;
           Api (create_namespaced_pod (namespace md))])) /\
    (forall (s : Deployment.t) md events exit
            (body : pyval -> M Deployment.t B),
       metadata_of s = Some md ->
       with_statement (Deployment.__enter__ (Raise e) events) exit body s
       = (Raise e, s,
          [LogPretty;
           Api (create_namespaced_deployment (namespace md))])) /\
    (forall (s : PodManager.t) events exit
            (body : pyval -> M PodManager.t B),
       with_statement (PodManager.__enter__ (Raise e) events) exit body s
       = (Raise e, s,
          [Printed "__enter__"; Printed "create";
           Api (create_namespaced_pod "default")])).
Proof.
  intros B e. split; [|split].
  - intros s md events exit body Hs.
    destruct (entity_state _ Hs) as (mf & sp & st & ->). reflexivity.
  - intros s md events exit body Hs.
    destruct (entity_state _ Hs) as (mf & sp & st & ->). reflexivity.
  - reflexivity.
Qed.

Lemma failed_enter_skips_body_and_teardown_witness :
  metadata_of sample_pod = Some sample_meta /\
  with_statement
    (Pod.__enter__ (Raise (ApiException 409)) [])
    (Pod.__exit__ (Return tt) [])
    (fun _ => print "in the body")
    sample_pod
  = (Raise (ApiException 409), sample_pod,
     [LogInfo "Creating pod default/sample-pod"; LogPretty;
      Api (create_namespaced_pod "default")]).
Proof.
  split; [reflexivity|].
  exact (proj1 (failed_enter_skips_body_and_teardown unit
                  (ApiException 409))
           sample_pod sample_meta [] (Pod.__exit__ (Return tt) [])
           (fun _ => print "in the body") eq_refl).
Defined.

Lemma with_statement_exit_raises {S B} (enter : M S pyval)
    (exit : option exn -> M S pyval) (body : pyval -> M S B)
    s h s1 t1 r s2 t2 e' :
  enter s = (Return h, s1, t1) ->
  body h s1 = (r, s2, t2) ->
  (forall exc, exists s3 t3, exit exc s2 = (Raise e', s3, t3)) ->
  fst (outcome (with_statement enter exit body) s) = Raise e'.
Proof.
  intros He Hb Hx. unfold outcome, with_statement. rewrite He, Hb.
  destruct r as [b|e].
  - destruct (Hx None) as (s3 & t3 & ->). reflexivity.
  - destruct (Hx (Some e)) as (s3 & t3 & ->). reflexivity.
Qed.

(** X12.  A delete call the client rejects during teardown is not
    contained: the [with] statement raises that error, whether the body
    had returned or had raised an error of its own, which is then
    lost. *)
Theorem rejected_teardown_escalates :
  forall (B : Type) e',
    (forall (enter : M Pod.t pyval) (body : pyval -> M Pod.t B)
            s h s1 t1 r s2 t2 md events,
       enter s = (Return h, s1, t1) ->
       body h s1 = (r, s2, t2) ->
       metadata_of s2 = Some md ->
       fst (outcome
              (with_statement enter (Pod.__exit__ (Raise e') events) body)
              s)
       = Raise e') /\
    (forall (enter : M Deployment.t pyval)
            (body : pyval -> M Deployment.t B)
            s h s1 t1 r s2 t2 md events,
       enter s = (Return h, s1, t1) ->
       body h s1 = (r, s2, t2) ->
       metadata_of s2 = Some md ->
       fst (outcome
              (with_statement enter
                 (Deployment.__exit__ (Raise e') events) body) s)
       = Raise e') /\
    (forall (enter : M PodManager.t pyval)
            (body : pyval -> M PodManager.t B)
            s h s1 t1 r s2 t2 md,
       enter s = (Return h, s1, t1) ->
       body h s1 = (r, s2, t2) ->
       held_metadata_of s2 = Some md ->
       fst (outcome
              (with_statement enter (PodManager.__exit__ (Raise e')) body)
              s)
       = Raise e').
Proof.
  intros B e'. split; [|split].
  - intros enter body s h s1 t1 r s2 t2 md events He Hb Hmd.
    eapply with_statement_exit_raises; [exact He | exact Hb |].
    intros exc. destruct (entity_state _ Hmd) as (mf & sp & st & ->).
    do 2 eexists. reflexivity.
  - intros enter body s h s1 t1 r s2 t2 md events He Hb Hmd.
    eapply with_statement_exit_raises; [exact He | exact Hb |].
    intros exc. destruct (entity_state _ Hmd) as (mf & sp & st & ->).
    do 2 eexists. reflexivity.
  - intros enter body s h s1 t1 r s2 t2 md He Hb Hmd.
    eapply with_statement_exit_raises; [exact He | exact Hb |].
    intros exc. destruct (held_state _ Hmd) as (sp & st & ->).
    do 2 eexists. reflexivity.
Qed.

(** The body fails with its own error; the caller sees the 404 of the
    delete call. *)
Lemma rejected_teardown_escalates_witness :
  (Pod.__enter__ (Return sample_v1pod)
     [pod_event "MODIFIED" sample_meta "Running"] sample_pod
   = (Return PySelf, sample_pod,
      [LogInfo "Creating pod default/sample-pod"; LogPretty;
       Api (create_namespaced_pod "default");
       Api (watch_list_namespaced_pod "default" 60);
       WatchStop; LogInfo "Pod created default/sample-pod"]) /\
   (raise (UserError "boom") : M Pod.t unit) sample_pod
   = (Raise (UserError "boom"), sample_pod, []) /\
   metadata_of sample_pod = Some sample_meta) /\
  fst (outcome
         (with_statement
            (Pod.__enter__ (Return sample_v1pod)
               [pod_event "MODIFIED" sample_meta "Running"])
            (Pod.__exit__ (Raise (ApiException 404)) [])
            (fun _ => raise (UserError "boom") : M Pod.t unit))
         sample_pod)
  = Raise (ApiException 404).
Proof.
  split; [repeat split; reflexivity|].
  refine (proj1 (rejected_teardown_escalates unit (ApiException 404))
            _ (fun _ => raise (UserError "boom")) sample_pod PySelf
            sample_pod _ (Raise (UserError "boom")) sample_pod []
            sample_meta [] _ _ _); reflexivity.
Defined.

(** X13.  Leaving the scope normally: once the delete call is accepted,
    the [with] statement returns what the body returned, whether the
    deletion was confirmed or not (an unconfirmed one is only printed). *)
Theorem scope_returns_body_result :
  forall (B : Type) (b : B),
    (forall (enter : M Pod.t pyval) (body : pyval -> M Pod.t B)
            s h s1 t1 s2 t2 md events,
       enter s = (Return h, s1, t1) ->
       body h s1 = (Return b, s2, t2) ->
       metadata_of s2 = Some md ->
       fst (outcome
              (with_statement enter (Pod.__exit__ (Return tt) events) body)
              s)
       = Return (Some b)) /\
    (forall (enter : M Deployment.t pyval)
            (body : pyval -> M Deployment.t B)
            s h s1 t1 s2 t2 md events,
       enter s = (Return h, s1, t1) ->
       body h s1 = (Return b, s2, t2) ->
       metadata_of s2 = Some md ->
       fst (outcome
              (with_statement enter
                 (Deployment.__exit__ (Return tt) events) body) s)
       = Return (Some b)) /\
    (forall (enter : M PodManager.t pyval)
            (body : pyval -> M PodManager.t B)
            s h s1 t1 s2 t2 md,
       enter s = (Return h, s1, t1) ->
       body h s1 = (Return b, s2, t2) ->
       held_metadata_of s2 = Some md ->
       fst (outcome
              (with_statement enter (PodManager.__exit__ (Return tt)) body)
              s)
       = Return (Some b)).
Proof.
  intros B b. split; [|split].
  - intros enter body s h s1 t1 s2 t2 md events He Hb Hmd.
    destruct (@pod_exit_returns_none s2 md events None Hmd) as [c Hx].
    unfold outcome in *. unfold with_statement. rewrite He, Hb.
    destruct (Pod.__exit__ (Return tt) events None s2) as [[r s3] t3].
    simpl in Hx. assert (Hr : r = Return PyNone) by congruence.
    now subst r.
  - intros enter body s h s1 t1 s2 t2 md events He Hb Hmd.
    destruct (@deployment_exit_returns_none s2 md events None Hmd)
      as [c Hx].
    unfold outcome in *. unfold with_statement. rewrite He, Hb.
    destruct (Deployment.__exit__ (Return tt) events None s2)
      as [[r s3] t3].
    simpl in Hx. assert (Hr : r = Return PyNone) by congruence.
    now subst r.
  - intros enter body s h s1 t1 s2 t2 md He Hb Hmd.
    unfold outcome, with_statement. rewrite He, Hb.
    now rewrite (@pod_manager_exit_returns_true s2 md None Hmd).
Qed.

Lemma scope_returns_body_result_witness :
  (Deployment.__enter__ (Return nginx_v1deployment) [] nginx_deployment
   = (Return PySelf, nginx_deployment,
      [LogPretty; Api (create_namespaced_deployment "default");
       Api (watch_list_namespaced_deployment "default" 60);
       Printed "unable to get created deployment default/nginx-deployment"])
   /\
   (ret 3%Z : M Deployment.t Z) nginx_deployment
   = (Return 3%Z, nginx_deployment, []) /\
   metadata_of nginx_deployment = Some nginx_meta) /\
  fst (outcome
         (with_statement
            (Deployment.__enter__ (Return nginx_v1deployment) [])
            (Deployment.__exit__ (Return tt) [])
            (fun _ => ret 3%Z : M Deployment.t Z))
         nginx_deployment)
  = Return (Some 3%Z).
Proof.
  split; [repeat split; reflexivity|].
  refine (proj1 (proj2 (scope_returns_body_result 3%Z))
            _ (fun _ => ret 3%Z) nginx_deployment PySelf
            nginx_deployment _ nginx_deployment [] nginx_meta []
            _ _ _); reflexivity.
Defined.

End Scopes.

(** ** More on the readiness loops *)

Module MoreLoops.
Import WatcherFacts RunFacts.

Section protocol.
Context {E : Type}.
Variable p : protocol E.
Hypothesis ready_stops : forall e, In WatchStop (on_ready p e).
Hypothesis gone_stops : In WatchStop (on_gone p).
Hypothesis each_quiet : forall e, ~ In WatchStop (each p e).
Hypothesis timeout_quiet : ~ In WatchStop (on_timeout p).

Lemma run_three_outcomes :
  three_outcomes (run_of p) (is_ready p) (is_gone p) (timeout_value p).
Proof.
  intros events. unfold run_of. cbn [fst snd].
  induction events as [|x rest IH].
  - right. right. simpl. repeat split; auto.
  - cbn [await].
    destruct (is_ready p x) eqn:Hr; [|destruct (is_gone p x) eqn:Hg].
    + left. exists [], x, rest. cbn [fst snd app].
      repeat split; auto. apply in_app_iff. auto.
    + right. left. exists [], x, rest. cbn [fst snd app].
      repeat split; auto. apply in_app_iff. auto.
    + destruct (await p rest) as [v t]. cbn [fst snd] in *.
      destruct IH as [(pre & e & post & -> & Hpre & He & Hv & Ht)
                     |[(pre & e & post & -> & Hpre & He & Hg' & Hv & Ht)
                      |(Hall & Hv & Ht)]].
      * left. exists (x :: pre), e, post. repeat split; auto.
        -- constructor; auto. now split.
        -- apply in_app_iff. auto.
      * right. left. exists (x :: pre), e, post. repeat split; auto.
        -- constructor; auto. now split.
        -- apply in_app_iff. auto.
      * right. right. repeat split; auto.
        -- constructor; auto. now split.
        -- intros Hin. apply in_app_iff in Hin.
           destruct Hin as [Hin|Hin]; [now apply (each_quiet x) | auto].
Qed.
End protocol.

Lemma transfer_three_outcomes {E}
    (run run' : list E -> result pyval * list effect) ready gone v :
  (forall events, run events = run' events) ->
  three_outcomes run' ready gone v -> three_outcomes run ready gone v.
Proof. intros same H events. rewrite same. apply H. Qed.

Ltac quiet :=
  simpl; intros;
  repeat match goal with
         | |- ~ _ => intros ?
         | H : _ \/ _ |- _ => destruct H
         | H : False |- _ => contradiction
         | H : _ = WatchStop |- _ => discriminate H
         end;
  auto; try discriminate.

(** On a stream that the server closes, every run of a readiness loop
    ends in exactly one of three
    ways, and none raises: [True] at the first event that passes the
    readiness test, [False] at the first that fails it and passes the
    deletion test, both after [Watch.stop()]; or, when every event of the
    stream passes neither test, the loop's value for an exhausted stream
    ([False] for [create], [None] for [ready]) without [Watch.stop()]. *)
Theorem loops_end_three_ways :
  (forall (s : Pod.t) md,
     metadata_of s = Some md ->
     three_outcomes (pod_create_run s)
       (pod_ready (name md)) (deleted_named (name md)) PyFalse) /\
  (forall (s : Deployment.t) md sp,
     metadata_of s = Some md -> spec_of s = Some sp ->
     three_outcomes (deployment_create_run s)
       (deployment_ready (name md) (replicas sp))
       (deleted_named (name md)) PyFalse) /\
  (forall (s : PodManager.t) md,
     held_metadata_of s = Some md ->
     three_outcomes (pod_manager_run s)
       (pod_ready (name md)) is_deleted PyNone) /\
  (forall (s : DeploymentManager.t) md sp,
     held_metadata_of s = Some md -> held_spec_of s = Some sp ->
     three_outcomes (deployment_manager_run s)
       (deployment_manager_ready (name md) (replicas sp))
       is_deleted PyNone).
Proof.
  split; [|split; [|split]]; intros.
  - apply (@transfer_three_outcomes _ _ (run_of (pod_create_protocol md)));
      [now apply pod_create_run_shape|].
    apply run_three_outcomes; quiet.
  - apply (@transfer_three_outcomes _ _
             (run_of (deployment_create_protocol md (replicas sp))));
      [now apply deployment_create_run_shape|].
    apply run_three_outcomes; quiet.
  - apply (@transfer_three_outcomes _ _ (run_of (pod_manager_protocol md)));
      [now apply pod_manager_run_shape|].
    apply run_three_outcomes; quiet.
  - apply (@transfer_three_outcomes _ _
             (run_of (deployment_manager_protocol md (replicas sp))));
      [now apply deployment_manager_run_shape|].
    apply run_three_outcomes; quiet.
Qed.

Lemma loops_end_three_ways_witness :
  metadata_of sample_pod = Some sample_meta /\
  (fst (pod_create_run sample_pod
          [pod_event "ADDED" other_meta "Running";
           pod_event "MODIFIED" sample_meta "Pending"])
   = Return PyTrue \/
   fst (pod_create_run sample_pod
          [pod_event "ADDED" other_meta "Running";
           pod_event "MODIFIED" sample_meta "Pending"])
   = Return PyFalse).
Proof.
  split; [reflexivity|].
  destruct (proj1 loops_end_three_ways sample_pod sample_meta eq_refl
              [pod_event "ADDED" other_meta "Running";
               pod_event "MODIFIED" sample_meta "Pending"])
    as [(pre & e & post & _ & _ & _ & Hv & _)
       |[(pre & e & post & _ & _ & _ & _ & Hv & _)
        |(_ & Hv & _)]]; auto.
Defined.

Lemma same_ending_of_protocols {E} (p p' : protocol E) run run' events :
  (forall events, run events = run_of p events) ->
  (forall events, run' events = run_of p' events) ->
  (forall e, In WatchStop (on_ready p e)) -> In WatchStop (on_gone p) ->
  (forall e, ~ In WatchStop (each p e)) ->
  (forall e, In WatchStop (on_ready p' e)) -> In WatchStop (on_gone p') ->
  (forall e, ~ In WatchStop (each p' e)) ->
  ~ In WatchStop (on_timeout p) -> ~ In WatchStop (on_timeout p') ->
  timeout_value p <> PyTrue -> timeout_value p' <> PyTrue ->
  Forall (fun e => is_ready p e = is_ready p' e /\
                   is_gone p e = is_gone p' e) events ->
  same_ending (run events) (run' events).
Proof.
  intros Hrun Hrun' H1 H2 H3 H4 H5 H6 H7 H8 H9 H10 Hall.
  rewrite Hrun, Hrun'.
  unfold same_ending, run_of. cbn [fst snd].
  induction events as [|x rest IH].
  - simpl. split; split; intros H; try contradiction;
      inversion H; contradiction.
  - inversion Hall as [|? ? [Hr Hg] Hrest]; subst.
    cbn [await]. rewrite <- Hr, <- Hg.
    destruct (is_ready p x); [|destruct (is_gone p x)].
    + cbn [fst snd]. split; split; intros _; auto;
        apply in_app_iff; auto.
    + cbn [fst snd]. split; split; intros H; try discriminate;
        apply in_app_iff; auto.
    + destruct (IH Hrest) as [Hv Ht].
      destruct (await p rest) as [v t], (await p' rest) as [v' t'].
      cbn [fst snd] in *. split; [exact Hv|].
      split; intros Hin; apply in_app_iff in Hin; apply in_app_iff;
        (destruct Hin as [Hin|Hin];
         [exfalso; first [now apply (H3 x) | now apply (H6 x)]
         | right; now apply Ht]).
Qed.

Lemma deleted_named_when_named {St} n (e : Event.t St) :
  (is_deleted e = true -> named e n = true) ->
  deleted_named n e = is_deleted e.
Proof.
  unfold deleted_named. destruct (is_deleted e); simpl; auto.
Qed.

(** X15.  The loops of [class_demo.py] and of [model.py] differ only on
    the DELETED events of other objects: on a stream whose DELETED events
    all carry the target's name, [PodManager.ready] ends as [Pod.create]'s
    loop does, and [DeploymentManager.ready] as [Deployment.create]'s:
    both [True], or both stopped at the deletion, or both with the
    stream exhausted. *)
Theorem manager_loops_agree_with_entity_loops :
  (forall (s : Pod.t) (s' : PodManager.t) md events,
     metadata_of s = Some md -> held_metadata_of s' = Some md ->
     deletions_named (name md) events ->
     same_ending (pod_create_run s events) (pod_manager_run s' events)) /\
  (forall (s : Deployment.t) (s' : DeploymentManager.t) md sp events,
     metadata_of s = Some md -> spec_of s = Some sp ->
     held_metadata_of s' = Some md -> held_spec_of s' = Some sp ->
     deletions_named (name md) events ->
     same_ending (deployment_create_run s events)
       (deployment_manager_run s' events)).
Proof.
  split.
  - intros s s' md events Hs Hs' Hdel.
    apply (@same_ending_of_protocols _
             (pod_create_protocol md) (pod_manager_protocol md));
      [now apply pod_create_run_shape | now apply pod_manager_run_shape
      | quiet .. | ].
    unfold deletions_named in Hdel.
    eapply Forall_impl; [|exact Hdel].
    intros e He. split; [reflexivity|].
    now apply deleted_named_when_named.
  - intros s s' md sp events Hs Hsp Hs' Hsp' Hdel.
    apply (@same_ending_of_protocols _
             (deployment_create_protocol md (replicas sp))
             (deployment_manager_protocol md (replicas sp)));
      [now apply deployment_create_run_shape
      | now apply deployment_manager_run_shape
      | quiet .. | ].
    unfold deletions_named in Hdel.
    eapply Forall_impl; [|exact Hdel].
    intros e He. split.
    + apply andb_comm.
    + now apply deleted_named_when_named.
Qed.

Lemma manager_loops_agree_with_entity_loops_witness :
  (metadata_of sample_pod = Some sample_meta /\
   held_metadata_of sample_pod_manager = Some sample_meta /\
   deletions_named "sample-pod"
     [pod_event "ADDED" other_meta "Running";
      pod_event "DELETED" sample_meta "Pending"]) /\
  same_ending
    (pod_create_run sample_pod
       [pod_event "ADDED" other_meta "Running";
        pod_event "DELETED" sample_meta "Pending"])
    (pod_manager_run sample_pod_manager
       [pod_event "ADDED" other_meta "Running";
        pod_event "DELETED" sample_meta "Pending"]).
Proof.
  assert (Hd : deletions_named "sample-pod"
                 [pod_event "ADDED" other_meta "Running";
                  pod_event "DELETED" sample_meta "Pending"]).
  { constructor; [intros H; discriminate H|].
    constructor; [intros _; reflexivity | constructor]. }
  split; [repeat split; auto|].
  exact (proj1 manager_loops_agree_with_entity_loops
           sample_pod sample_pod_manager sample_meta _
           eq_refl eq_refl Hd).
Defined.

End MoreLoops.

(** ** More on waiting *)

Module Waiting.
Import LoopFacts Lifecycle CreateDelete.

Lemma pod_delete_watch_state (s : Pod.t) md events :
  metadata_of s = Some md ->
  state_after (Pod.delete_watch events) s
  = if existsb (uid_deleted (uid md)) events
    then holding s Obj.empty else s.
Proof.
  intros H. destruct (entity_state _ H) as (mf & sp & st & ->). clear H.
  unfold state_after.
  induction events as [|e rest IH].
  - reflexivity.
  - cbn [Pod.delete_watch existsb]. unfold uid_deleted at 1. run.
    cbn -[String.append existsb].
    destruct (is_deleted e); cbn -[String.append existsb];
      [destruct (opt_eqb String.eqb (uid (Event.metadata e)) (uid md));
       cbn -[String.append existsb] | ];
      try reflexivity;
      destruct (Pod.delete_watch rest _) as [[r s'] t];
      cbn in IH |- *; exact IH.
Qed.

(** X9.  [Pod.delete] with waiting, once the delete call is accepted,
    resets [self.model] to the empty default exactly when the stream
    holds a DELETED event with the pod's uid; when the deletion stays
    unconfirmed the object is left as it was, manifest and model, so the
    delete can be tried again. *)
Theorem pod_delete_resets_iff_confirmed :
  forall (s : Pod.t) md timeout events,
    metadata_of s = Some md ->
    state_after (Pod.delete true timeout (Return tt) events) s
    = if existsb (uid_deleted (uid md)) events
      then holding s Obj.empty else s.
Proof.
  intros s md timeout events Hs.
  pose proof (@pod_delete_watch_state s md events Hs) as Hw.
  destruct (entity_state _ Hs) as (mf & sp & st & ->).
  unfold state_after in *. methods. run.
  cbn -[String.append Pod.delete_watch existsb].
  destruct (Pod.delete_watch events _) as [[r s'] t].
  cbn in Hw |- *. exact Hw.
Qed.

Lemma pod_delete_resets_iff_confirmed_witness :
  metadata_of sample_pod = Some sample_meta /\
  state_after
    (Pod.delete true 60 (Return tt)
       [pod_event "DELETED" other_meta "Running"]) sample_pod
  = sample_pod.
Proof.
  split; [reflexivity|].
  rewrite (@pod_delete_resets_iff_confirmed sample_pod sample_meta 60%Z
             [pod_event "DELETED" other_meta "Running"] eq_refl).
  reflexivity.
Defined.

(** X10.  [ready] of the two managers: after its print, one watch request
    on the namespace of the held object with the caller's timeout, then
    the loop; whatever the stream holds, the held object is not
    changed. *)
Theorem ready_watches_and_keeps_object :
  (forall (s : PodManager.t) md timeout events,
     held_metadata_of s = Some md ->
     PodManager.ready timeout events s
     = (fst (pod_manager_run s events), s,
        [Printed "ready";
         Api (watch_list_namespaced_pod (namespace md) timeout)]
        ++ snd (pod_manager_run s events))) /\
  (forall (s : DeploymentManager.t) md sp timeout events,
     held_metadata_of s = Some md -> held_spec_of s = Some sp ->
     DeploymentManager.ready timeout events s
     = (fst (deployment_manager_run s events), s,
        [Printed "ready";
         Api (watch_list_namespaced_deployment (namespace md) timeout)]
        ++ snd (deployment_manager_run s events))).
Proof.
  split.
  - intros s md timeout events Hs.
    pose proof (@pod_manager_ready_watch_await s md events Hs) as Hw.
    destruct (held_state _ Hs) as (sp & st & ->).
    unfold pod_manager_run, outcome, PodManager.ready. run.
    cbn -[String.append PodManager.ready_watch].
    rewrite Hw. reflexivity.
  - intros s md sp timeout events Hs Hsp.
    pose proof (@deployment_manager_ready_watch_await s md sp events
                  Hs Hsp) as Hw.
    destruct (held_state_spec _ Hs Hsp) as (st & ->).
    unfold deployment_manager_run, outcome, DeploymentManager.ready. run.
    cbn -[String.append DeploymentManager.ready_watch].
    rewrite Hw. reflexivity.
Qed.

Lemma ready_watches_and_keeps_object_witness :
  held_metadata_of sample_pod_manager = Some sample_meta /\
  PodManager.ready 5 [pod_event "MODIFIED" sample_meta "Pending"]
    sample_pod_manager
  = (Return PyNone, sample_pod_manager,
     [Printed "ready"; Api (watch_list_namespaced_pod "default" 5)]).
Proof.
  split; [reflexivity|].
  rewrite (proj1 ready_watches_and_keeps_object
             sample_pod_manager sample_meta 5%Z
             [pod_event "MODIFIED" sample_meta "Pending"] eq_refl).
  reflexivity.
Defined.

End Waiting.

(** ** The first ready event and the managers *)

Module FirstReady.

(** C5, at the failing input.  On each stream the first event that
    carries the target's name and satisfies the readiness predicate is
    the third, and no event before it is a DELETED event of the target.
    [PodManager.ready] and [DeploymentManager.ready] do not resolve Ready
    there: they stop the watch and return [False] at the second event,
    the DELETED event of another object, and never read the third.
    [Pod.create] and [Deployment.create], on the same streams, return
    [True] at the third event. *)
Theorem manager_loops_miss_first_ready_event :
  map (pod_ready "sample-pod") pod_stream_with_foreign_deletion
  = [false; false; true; true] /\
  map (deleted_named "sample-pod") pod_stream_with_foreign_deletion
  = [false; false; false; false] /\
  pod_manager_run sample_pod_manager pod_stream_with_foreign_deletion
  = (Return PyFalse, [WatchStop]) /\
  pod_create_run sample_pod pod_stream_with_foreign_deletion
  = (Return PyTrue,
     [WatchStop; LogInfo "Pod created default/sample-pod"]) /\
  map (deployment_manager_ready "nginx-deployment" (Some 3%Z))
    deployment_stream_with_foreign_deletion
  = [false; false; true] /\
  map (deleted_named "nginx-deployment")
    deployment_stream_with_foreign_deletion
  = [false; false; false] /\
  deployment_manager_run nginx_deployment_manager
    deployment_stream_with_foreign_deletion
  = (Return PyFalse, [Printed "MODIFIED"; Printed "DELETED"; WatchStop]) /\
  deployment_create_run nginx_deployment
    deployment_stream_with_foreign_deletion
  = (Return PyTrue, [WatchStop]).
Proof. repeat split; reflexivity. Qed.

End FirstReady.

(** ** Generators that fail *)

Module FailingStreams.
Import LoopFacts.

(** A [for] loop whose body decides as a protocol does, from a state it
    does not change, runs as the protocol's shape. *)
Lemma for_each_await {S E} (p : protocol E)
    (body : E -> M S (option pyval)) (orelse : M S pyval) (s : S) :
  (forall e,
     body e s
     = (Return (if is_ready p e then Some PyTrue
                else if is_gone p e then Some PyFalse else None),
        s,
        each p e ++ (if is_ready p e then on_ready p e
                     else if is_gone p e then on_gone p else []))) ->
  orelse s = (Return (timeout_value p), s, on_timeout p) ->
  forall how events,
    for_each body orelse how events s
    = (fst (await_until p how events), s,
       snd (await_until p how events)).
Proof.
  intros Hbody Horelse how events.
  induction events as [|e rest IH].
  - destruct how; [exact Horelse | reflexivity].
  - cbn [for_each await_until]. unfold bind. rewrite Hbody.
    destruct (is_ready p e); [|destruct (is_gone p e)].
    + unfold ret. cbn [fst snd]. now rewrite app_nil_r.
    + unfold ret. cbn [fst snd]. now rewrite app_nil_r.
    + rewrite IH. rewrite app_nil_r.
      now destruct (await_until p how rest).
Qed.

Lemma pod_create_stream_await (s : Pod.t) md how events :
  metadata_of s = Some md ->
  pod_create_stream how events s
  = (fst (await_until (pod_create_protocol md) how events), s,
     snd (await_until (pod_create_protocol md) how events)).
Proof.
  intros H. destruct (entity_state _ H) as (mf & sp & st & ->). clear H.
  unfold pod_create_stream. apply for_each_await; [|reflexivity].
  intros e. cbn [is_ready is_gone each on_ready on_gone pod_create_protocol].
  unfold pod_ready, deleted_named. run.
  destruct (is_running e); cbn -[String.append];
    destruct (named e (name md)) eqn:En; cbn -[String.append];
    try reflexivity;
    destruct (is_deleted e); cbn -[String.append];
    rewrite ?En; reflexivity.
Qed.

Lemma deployment_create_stream_await (s : Deployment.t) md sp how events :
  metadata_of s = Some md -> spec_of s = Some sp ->
  deployment_create_stream how events s
  = (fst (await_until (deployment_create_protocol md (replicas sp))
            how events), s,
     snd (await_until (deployment_create_protocol md (replicas sp))
            how events)).
Proof.
  intros H H'. destruct (entity_state_spec _ H H') as (mf & st & ->).
  clear H H'. unfold deployment_create_stream.
  apply for_each_await; [|reflexivity].
  intros e.
  cbn [is_ready is_gone each on_ready on_gone deployment_create_protocol].
  unfold deployment_ready, deleted_named. run. cbn -[String.append].
  destruct (opt_eqb Z.eqb (available_replicas (Event.status e))
              (replicas sp)); cbn -[String.append];
    destruct (named e (name md)) eqn:En; cbn -[String.append];
    try reflexivity;
    destruct (is_deleted e); cbn -[String.append];
    rewrite ?En; reflexivity.
Qed.

Lemma pod_manager_stream_await (s : PodManager.t) md how events :
  held_metadata_of s = Some md ->
  pod_manager_stream how events s
  = (fst (await_until (pod_manager_protocol md) how events), s,
     snd (await_until (pod_manager_protocol md) how events)).
Proof.
  intros H. destruct (held_state _ H) as (sp & st & ->). clear H.
  unfold pod_manager_stream. apply for_each_await; [|reflexivity].
  intros e.
  cbn [is_ready is_gone each on_ready on_gone pod_manager_protocol].
  unfold pod_ready. run.
  destruct (is_running e); cbn -[String.append];
    destruct (named e (name md)) eqn:En; cbn -[String.append];
    try reflexivity;
    destruct (is_deleted e); reflexivity.
Qed.

Lemma deployment_manager_stream_await
    (s : DeploymentManager.t) md sp how events :
  held_metadata_of s = Some md -> held_spec_of s = Some sp ->
  deployment_manager_stream how events s
  = (fst (await_until (deployment_manager_protocol md (replicas sp))
            how events), s,
     snd (await_until (deployment_manager_protocol md (replicas sp))
            how events)).
Proof.
  intros H H'. destruct (held_state_spec _ H H') as (st & ->). clear H H'.
  unfold deployment_manager_stream. apply for_each_await; [|reflexivity].
  intros e.
  cbn [is_ready is_gone each on_ready on_gone deployment_manager_protocol].
  unfold deployment_manager_ready. run. cbn -[String.append].
  destruct (named e (name md)) eqn:En; cbn -[String.append];
    [destruct (opt_eqb Z.eqb (available_replicas (Event.status e))
                 (replicas sp)); cbn -[String.append] | ];
    try reflexivity;
    destruct (is_deleted e); reflexivity.
Qed.

Lemma await_until_closed {E} (p : protocol E) events :
  await_until p Closed events = run_of p events.
Proof.
  unfold run_of. induction events as [|e rest IH]; [reflexivity|].
  cbn [await_until await].
  destruct (is_ready p e); [reflexivity|].
  destruct (is_gone p e); [reflexivity|].
  rewrite IH. unfold run_of. now destruct (await p rest).
Qed.

(** On a generator that the server closes, the loops are the loops of
    the classes. *)
Lemma closed_stream_is_the_loop :
  (forall (s : Pod.t) md events,
     metadata_of s = Some md ->
     pod_create_stream Closed events s = Pod.create_watch events s) /\
  (forall (s : Deployment.t) md sp events,
     metadata_of s = Some md -> spec_of s = Some sp ->
     deployment_create_stream Closed events s
     = Deployment.create_watch events s) /\
  (forall (s : PodManager.t) md events,
     held_metadata_of s = Some md ->
     pod_manager_stream Closed events s
     = PodManager.ready_watch events s) /\
  (forall (s : DeploymentManager.t) md sp events,
     held_metadata_of s = Some md -> held_spec_of s = Some sp ->
     deployment_manager_stream Closed events s
     = DeploymentManager.ready_watch events s).
Proof.
  split; [|split; [|split]].
  - intros s md events H.
    rewrite (@pod_create_stream_await s md Closed events H).
    rewrite (@pod_create_watch_await s md events H).
    now rewrite await_until_closed.
  - intros s md sp events H H'.
    rewrite (@deployment_create_stream_await s md sp Closed events H H').
    rewrite (@deployment_create_watch_await s md sp events H H').
    now rewrite await_until_closed.
  - intros s md events H.
    rewrite (@pod_manager_stream_await s md Closed events H).
    rewrite (@pod_manager_ready_watch_await s md events H).
    now rewrite await_until_closed.
  - intros s md sp events H H'.
    rewrite (@deployment_manager_stream_await s md sp Closed events H H').
    rewrite (@deployment_manager_ready_watch_await s md sp events H H').
    now rewrite await_until_closed.
Qed.

Section protocol.
Context {E : Type}.
Variable p : protocol E.
Hypothesis ready_stops : forall e, In WatchStop (on_ready p e).
Hypothesis gone_stops : In WatchStop (on_gone p).
Hypothesis each_quiet : forall e, ~ In WatchStop (each p e).
Hypothesis timeout_quiet : ~ In WatchStop (on_timeout p).

Lemma await_until_four_outcomes :
  four_outcomes (await_until p)
    (is_ready p) (is_gone p) (timeout_value p).
Proof.
  intros how events.
  induction events as [|x rest IH].
  - right. right. split; [constructor|].
    destruct how; simpl; auto.
  - cbn [await_until].
    destruct (is_ready p x) eqn:Hr; [|destruct (is_gone p x) eqn:Hg].
    + left. exists [], x, rest. cbn [fst snd app].
      repeat split; auto. apply in_app_iff. auto.
    + right. left. exists [], x, rest. cbn [fst snd app].
      repeat split; auto. apply in_app_iff. auto.
    + destruct (await_until p how rest) as [v t]. cbn [fst snd] in *.
      destruct IH as [(pre & e & post & -> & Hpre & He & Hv & Ht)
                     |[(pre & e & post & -> & Hpre & He & Hg' & Hv & Ht)
                      |(Hall & Ht & Hv)]].
      * left. exists (x :: pre), e, post. repeat split; auto.
        -- constructor; auto. now split.
        -- apply in_app_iff. auto.
      * right. left. exists (x :: pre), e, post. repeat split; auto.
        -- constructor; auto. now split.
        -- apply in_app_iff. auto.
      * right. right. repeat split; auto.
        -- constructor; auto. now split.
        -- intros Hin. apply in_app_iff in Hin.
           destruct Hin as [Hin|Hin]; [now apply (each_quiet x) | auto].
Qed.
End protocol.

Lemma transfer_four_outcomes {E}
    (run run' : ending -> list E -> result pyval * list effect)
    ready gone v :
  (forall how events, run how events = run' how events) ->
  four_outcomes run' ready gone v -> four_outcomes run ready gone v.
Proof. intros same H how events. rewrite same. apply H. Qed.

Ltac quiet :=
  simpl; intros;
  repeat match goal with
         | |- ~ _ => intros ?
         | H : _ \/ _ |- _ => destruct H
         | H : False |- _ => contradiction
         | H : _ = WatchStop |- _ => discriminate H
         end;
  auto; try discriminate.

(** X14.  A readiness loop, run on an object with metadata (and spec for
    deployments) over a generator that yields some events and is then
    closed by the server or raises, ends in exactly one of four ways:
    [True] after [Watch.stop()] at the first event that passes the
    readiness test; [False] after [Watch.stop()] at the first event that
    fails it and passes the loop's deletion test; or, every event yielded
    having passed neither test and [Watch.stop()] never called, the
    loop's end-of-stream value when the stream was closed ([False] for
    [create], [None] for [ready]) and the generator's own error when it
    raised. *)
Theorem loops_end_four_ways :
  (forall (s : Pod.t) md,
     metadata_of s = Some md ->
     four_outcomes
       (fun how events => outcome (pod_create_stream how events) s)
       (pod_ready (name md)) (deleted_named (name md)) PyFalse) /\
  (forall (s : Deployment.t) md sp,
     metadata_of s = Some md -> spec_of s = Some sp ->
     four_outcomes
       (fun how events => outcome (deployment_create_stream how events) s)
       (deployment_ready (name md) (replicas sp))
       (deleted_named (name md)) PyFalse) /\
  (forall (s : PodManager.t) md,
     held_metadata_of s = Some md ->
     four_outcomes
       (fun how events => outcome (pod_manager_stream how events) s)
       (pod_ready (name md)) is_deleted PyNone) /\
  (forall (s : DeploymentManager.t) md sp,
     held_metadata_of s = Some md -> held_spec_of s = Some sp ->
     four_outcomes
       (fun how events =>
          outcome (deployment_manager_stream how events) s)
       (deployment_manager_ready (name md) (replicas sp))
       is_deleted PyNone).
Proof.
  split; [|split; [|split]]; intros.
  - apply (@transfer_four_outcomes _ _
             (await_until (pod_create_protocol md))).
    + intros how events. unfold outcome.
      rewrite (@pod_create_stream_await s md how events H).
      now destruct (await_until (pod_create_protocol md) how events).
    + apply await_until_four_outcomes; quiet.
  - apply (@transfer_four_outcomes _ _
             (await_until (deployment_create_protocol md (replicas sp)))).
    + intros how events. unfold outcome.
      rewrite (@deployment_create_stream_await s md sp how events H H0).
      now destruct (await_until
                      (deployment_create_protocol md (replicas sp))
                      how events).
    + apply await_until_four_outcomes; quiet.
  - apply (@transfer_four_outcomes _ _
             (await_until (pod_manager_protocol md))).
    + intros how events. unfold outcome.
      rewrite (@pod_manager_stream_await s md how events H).
      now destruct (await_until (pod_manager_protocol md) how events).
    + apply await_until_four_outcomes; quiet.
  - apply (@transfer_four_outcomes _ _
             (await_until
                (deployment_manager_protocol md (replicas sp)))).
    + intros how events. unfold outcome.
      rewrite (@deployment_manager_stream_await s md sp how events H H0).
      now destruct (await_until
                      (deployment_manager_protocol md (replicas sp))
                      how events).
    + apply await_until_four_outcomes; quiet.
Qed.

(** The generator of [PodManager.ready] raises after an event of another
    pod. *)
Lemma loops_end_four_ways_witness :
  held_metadata_of sample_pod_manager = Some sample_meta /\
  (fst (outcome
          (pod_manager_stream (Broken (ApiException 410))
             [pod_event "ADDED" other_meta "Running"])
          sample_pod_manager) = Return PyTrue \/
   fst (outcome
          (pod_manager_stream (Broken (ApiException 410))
             [pod_event "ADDED" other_meta "Running"])
          sample_pod_manager) = Return PyFalse \/
   fst (outcome
          (pod_manager_stream (Broken (ApiException 410))
             [pod_event "ADDED" other_meta "Running"])
          sample_pod_manager) = Raise (ApiException 410)).
Proof.
  split; [reflexivity|].
  destruct (proj1 (proj2 (proj2 loops_end_four_ways))
              sample_pod_manager sample_meta eq_refl
              (Broken (ApiException 410))
              [pod_event "ADDED" other_meta "Running"])
    as [(pre & e & post & _ & _ & _ & Hv & _)
       |[(pre & e & post & _ & _ & _ & _ & Hv & _)
        |(_ & _ & Hv)]]; auto.
Defined.

(** What the run of the witness is. *)
Example failed_generator :
  outcome
    (pod_manager_stream (Broken (ApiException 410))
       [pod_event "ADDED" other_meta "Running"])
    sample_pod_manager
  = (Raise (ApiException 410), []).
Proof. reflexivity. Qed.

End FailingStreams.
